(** * quanta-clusters: the token renderer and the cluster ranker

    A shallow embedding of the two pieces of logic of [quanta-clusters.py]:
    the function [tokens_to_html] and the module-level computation of
    [cluster_to_tokens] and [new_index_old_index].

    Conventions.
    - A Python [str] is modelled as a [string] holding its UTF-8 bytes.
      Every character the code tests or rewrites is ASCII, and UTF-8 never
      uses an ASCII byte inside a multi-byte sequence, so the byte-level
      tests, replacements and substring search below agree with the
      code-point-level ones of Python; a token made only of line-break
      characters has as many bytes as code points, so [len(token)] is
      [String.length] there.
    - Rocq string literals have no escape sequences: ["\$"] is the two
      characters backslash and dollar, exactly Python's ['\$'].
    - [max_len] is a Python integer, modelled in [Z] (it may be zero or
      negative, and the slice [tokens[-max_len:]] then behaves differently).
    - A [dict] whose iteration order matters is an association list in
      insertion order. *)

From Stdlib Require Import List Bool Arith ZArith Lia Ascii String.
From Stdlib Require Import DecimalString.
From Stdlib Require Import Sorted Permutation.
Import ListNotations.

Local Open Scope list_scope.
Local Open Scope string_scope.

(** ** Python primitives used by the source *)

Module Py.

(** [enumerate(l)] *)
Definition enumerate {A : Type} (l : list A) : list (nat * A) :=
  combine (seq 0 (List.length l)) l.

(** [n * s] for a string [s] *)
Fixpoint str_mul (n : nat) (s : string) : string :=
  match n with
  | O => ""
  | S n' => s ++ str_mul n' s
  end.

(** [s.replace(old, new)] for a pattern [old] of exactly one character,
    which is how the source always calls it. *)
Fixpoint replace (old : ascii) (new : string) (s : string) : string :=
  match s with
  | EmptyString => EmptyString
  | String c s' =>
      if Ascii.eqb c old then new ++ replace old new s'
      else String c (replace old new s')
  end.

(** [pat in s] for strings: substring search. *)
Fixpoint contains (pat s : string) : bool :=
  String.prefix pat s ||
  match s with
  | EmptyString => false
  | String _ s' => contains pat s'
  end.

(** [x in l] for a list of strings. *)
Definition in_list (x : string) (l : list string) : bool :=
  existsb (String.eqb x) l.

(** [l[-m:]]: the slice whose start is [-m].  A negative start counts
    from the end and is clipped at [0]; a start that is not negative
    (so also [-0]) counts from the front and is clipped at [len(l)]. *)
Definition slice_from_neg {A : Type} (l : list A) (m : Z) : list A :=
  let n := Z.of_nat (List.length l) in
  let start := (- m)%Z in
  let start :=
    if (start <? 0)%Z then Z.max (start + n) 0 else Z.min start n in
  skipn (Z.to_nat start) l.

(** [sorted(l, key=key, reverse=True)] for keys that are sizes.  Python's
    sort is stable, and stays so under [reverse=True]: the result is in
    descending key order and elements with equal keys keep the order
    they had in [l].  The stable insertion sort below computes that
    list: an element is put in front of the first element whose key is
    not larger than its own. *)
Fixpoint insert_desc {A : Type} (key : A -> nat) (x : A) (l : list A)
    : list A :=
  match l with
  | [] => [x]
  | y :: l' =>
      if Nat.ltb (key x) (key y) then y :: insert_desc key x l'
      else x :: y :: l'
  end.

Definition sorted_reverse {A : Type} (key : A -> nat) (l : list A)
    : list A :=
  fold_right (insert_desc key) [] l.

(** [str(n)] for an integer [n]: its decimal digits, with a minus sign
    when negative. *)
Definition str_int (n : Z) : string := NilZero.string_of_int (Z.to_int n).

(** [l.index(x)] for a list of strings; [None] stands for [ValueError]. *)
Fixpoint index (x : string) (l : list string) : option nat :=
  match l with
  | [] => None
  | y :: l' => if String.eqb y x then Some 0 else option_map S (index x l')
  end.

End Py.

(** ** The renderer: [tokens_to_html] *)

Definition LF : string := String "010" "".
Definition CR : string := String "013" "".
Definition VT : string := String "011" "".
Definition FF : string := String "012" "".
Definition dquote : string := String "034" "".

(** The glyph U+23CE (return symbol), as its three UTF-8 bytes. *)
Definition glyph : string := String "226" (String "143" (String "142" "")).

Definition CRLF : string := String "013" (String "010" "").

Definition newline_tokens : list string := [LF; CR; CRLF; VT; FF].

Definition ellipsis : string := "<span>...</span>".

Definition placeholder : string :=
  "CONTEXT NOT LOADED FOR SECURITY REASONS SINCE IT CONTAINS HTML CODE (could contain javascript).".

(** The opening tag both f-strings of the source start with. *)
Definition span_open (background_color : string) : string :=
  "<span style=" ++ dquote ++ "border: 1px solid #DDD; "
  ++ "background-color: " ++ background_color
  ++ "; white-space: pre-wrap;" ++ dquote ++ ">".

(** [all([c in newline_tokens for c in token])] *)
Definition all_newline (token : string) : bool :=
  forallb (fun c => Py.in_list (String c "") newline_tokens)
          (list_ascii_of_string token).

(** One iteration of the [for] loop; the state is the pair [(html, txt)],
    [len_tokens] is [len(tokens)] of the truncated list. *)
Definition loop_body (len_tokens : nat) (st : string * string)
    (it : nat * string) : string * string :=
  let '(html, txt) := st in
  let '(i, token) := it in
  let background_color :=
    if negb (Z.of_nat i =? Z.of_nat len_tokens - 1)%Z
    then "white" else "#FF9999" in
  let txt := txt ++ token in
  if all_newline token then
    let token_rep := Py.str_mul (String.length token) glyph in
    let brs := Py.str_mul (String.length token) "<br>" in
    (html ++ (span_open background_color ++ token_rep ++ "</span>" ++ brs),
     txt)
  else
    let token := Py.replace "$" "\$" token in
    let token := Py.replace "&" "&amp;" token in
    let token := Py.replace "_" "\_" token in
    let token := Py.replace "*" "\*" token in
    let token := Py.replace "`" "\`" token in
    (html ++ (span_open background_color ++ token ++ "</span>"), txt).

Definition tokens_to_html (tokens : list string) (max_len : Z) : string :=
  let html := "" in
  let txt := "" in
  let html :=
    if (Z.of_nat (List.length tokens) >? max_len)%Z
    then html ++ ellipsis else html in
  let tokens := Py.slice_from_neg tokens max_len in
  let '(html, txt) :=
    fold_left (loop_body (List.length tokens)) (Py.enumerate tokens)
              (html, txt) in
  if Py.contains "</" txt then placeholder else html.

(** The default value of the parameter [max_len]. *)
Definition default_max_len : Z := 150.

(** ** The renderer in the specification's vocabulary

    These definitions follow the wording of the specification (cells,
    backgrounds, escaped forms); the lemmas of the next part relate them to
    the code above. *)

Definition plain : string := "white".
Definition highlight : string := "#FF9999".

(** ["".join(l)] *)
Definition join (l : list string) : string := fold_right String.append "" l.

(** A bordered, whitespace-preserving inline container around [content]. *)
Definition bordered_cell (background content : string) : string :=
  span_open background ++ content ++ "</span>".

(** The escaped form of one character. *)
Definition escape_char (c : ascii) : string :=
  if Ascii.eqb c "$" then "\$"
  else if Ascii.eqb c "&" then "&amp;"
  else if Ascii.eqb c "_" then "\_"
  else if Ascii.eqb c "*" then "\*"
  else if Ascii.eqb c "`" then "\`"
  else String c "".

(** Every character replaced by its escaped form, all at once. *)
Fixpoint escape (token : string) : string :=
  match token with
  | EmptyString => ""
  | String c token' => escape_char c ++ escape token'
  end.

(** What one token contributes to the markup. *)
Definition token_cell (background token : string) : string :=
  if all_newline token then
    bordered_cell background (Py.str_mul (String.length token) glyph)
    ++ Py.str_mul (String.length token) "<br>"
  else bordered_cell background (escape token).

(** The background of a token, given the tokens that follow it. *)
Definition background_before (following : list string) : string :=
  match following with
  | [] => highlight
  | _ :: _ => plain
  end.

(** One cell per token of the window, the final one highlighted. *)
Fixpoint window_cells (w : list string) : list string :=
  match w with
  | [] => []
  | token :: w' => token_cell (background_before w') token :: window_cells w'
  end.

(** The ellipsis marker, present when the sequence was too long. *)
Definition marker (tokens : list string) (max_len : Z) : string :=
  if (Z.of_nat (List.length tokens) >? max_len)%Z then ellipsis else "".

(** The rendered window and whether its raw text passes the check. *)
Definition window (tokens : list string) (max_len : Z) : list string :=
  Py.slice_from_neg tokens max_len.

Definition withheld (tokens : list string) (max_len : Z) : bool :=
  Py.contains "</" (join (window tokens max_len)).

(** The specification's newline policy read literally: one bordered cell
    per glyph, then as many line breaks. *)
Definition one_cell_per_glyph (background : string) (n : nat) : string :=
  join (repeat (bordered_cell background glyph) n) ++ Py.str_mul n "<br>".

(** ** The ranker: [cluster_to_tokens] and [new_index_old_index]

    The labels come from a JSON document; the code only hashes and
    compares them, so they are any type with decidable equality. *)

(** The error kind the specification names for the ranker. *)
Inductive error : Type := InvalidInput.

Section Ranker.

Variable label : Type.
Variable label_eq_dec : forall a b : label, {a = b} + {a <> b}.

(** A [defaultdict(list)] from labels to lists of sample indices, in
    insertion order of its keys. *)
Definition groups : Type := list (label * list nat).

(** The rank table, a [dict] from ranks to labels. *)
Definition rank_table : Type := list (nat * label).

(** [d[k]] as a value: the list stored under [k], the empty list of the
    default factory when [k] is missing. *)
Fixpoint getitem (d : groups) (k : label) : list nat :=
  match d with
  | [] => []
  | (k', v) :: d' => if label_eq_dec k k' then v else getitem d' k
  end.

(** [d[k].append(i)]: a missing key is first added, at the end. *)
Fixpoint append_at (d : groups) (k : label) (i : nat) : groups :=
  match d with
  | [] => [(k, [i])]
  | (k', v) :: d' =>
      if label_eq_dec k k' then (k', (v ++ [i])%list) :: d'
      else (k', v) :: append_at d' k i
  end.

(** Iterating over a dict yields its keys in insertion order. *)
Definition keys (d : groups) : list label := map fst d.

Definition cluster_to_tokens (labels_list : list label) : groups :=
  fold_left (fun d it => append_at d (snd it) (fst it))
            (Py.enumerate labels_list) [].

Definition new_index_old_index (labels_list : list label) : rank_table :=
  let cluster_to_tokens := cluster_to_tokens labels_list in
  Py.enumerate
    (Py.sorted_reverse (fun k => List.length (getitem cluster_to_tokens k))
                       (keys cluster_to_tokens)).

(** [table[i]], [None] standing for [KeyError]. *)
Fixpoint lookup (table : rank_table) (i : nat) : option label :=
  match table with
  | [] => None
  | (j, c) :: table' => if Nat.eqb i j then Some c else lookup table' i
  end.

(** The ranker as one operation.  The source computes both tables at
    module level; there is no [raise] and no guard on that path, so the
    outcome is always a normal return. *)
Definition rank (labels_list : list label)
    : error + (rank_table * groups) :=
  inr (new_index_old_index labels_list, cluster_to_tokens labels_list).

(** The size of the group of a label. *)
Definition group_size (labels_list : list label) (c : label) : nat :=
  List.length (getitem (cluster_to_tokens labels_list) c).

(** The sample indices that carry a label, in increasing order. *)
Definition positions (labels_list : list label) (c : label) : list nat :=
  map fst
      (filter (fun it => if label_eq_dec (snd it) c then true else false)
              (Py.enumerate labels_list)).

(** The labels in rank order. *)
Definition ranked_labels (labels_list : list label) : list label :=
  Py.sorted_reverse (group_size labels_list)
                    (keys (cluster_to_tokens labels_list)).

(** The position at which a label is first seen in the assignment
    (the length of the list when it never is). *)
Fixpoint first_seen (c : label) (labels_list : list label) : nat :=
  match labels_list with
  | [] => 0
  | c' :: l => if label_eq_dec c c' then 0 else S (first_seen c l)
  end.

End Ranker.

Arguments getitem {label} label_eq_dec d k.
Arguments append_at {label} label_eq_dec d k i.
Arguments keys {label} d.
Arguments cluster_to_tokens {label} label_eq_dec labels_list.
Arguments new_index_old_index {label} label_eq_dec labels_list.
Arguments lookup {label} table i.
Arguments rank {label} label_eq_dec labels_list.
Arguments group_size {label} label_eq_dec labels_list c.
Arguments positions {label} label_eq_dec labels_list c.
Arguments ranked_labels {label} label_eq_dec labels_list.
Arguments first_seen {label} label_eq_dec c labels_list.

(** The assignments of the examples. *)
Definition assignment_aba : list string := ["a"; "b"; "a"].
Definition assignment_tie : list string := ["a"; "b"; "c"; "c"; "b"; "d"].

(** The order a stable descending sort produces: by descending [key],
    elements of equal key by ascending place [p] in the input. *)
Definition key_then_place {A : Type} (key p : A -> nat) (a b : A) : Prop :=
  key b < key a \/ (key a = key b /\ p a < p b).

(** The background the loop picks for the token at index [i]. *)
Definition background_at (len_tokens i : nat) : string :=
  if Nat.eqb (S i) len_tokens then highlight else plain.

(** ** The rest of the script: selection, navigation and display *)

(** The exceptions the script can end with. *)
Inductive exception : Type := KeyError | IndexError | ValueError.

(** ['400' if '400' in cluster_sizes else cluster_sizes[0]] *)
Definition default_n_clusters (cluster_sizes : list string)
    : exception + string :=
  if Py.in_list "400" cluster_sizes then inr "400"
  else match cluster_sizes with
       | [] => inl IndexError
       | first :: _ => inr first
       end.

(** [cluster_sizes.index(default_n_clusters)], the index handed to the
    select box. *)
Definition default_index (cluster_sizes : list string) : exception + nat :=
  match default_n_clusters cluster_sizes with
  | inl e => inl e
  | inr default =>
      match Py.index default cluster_sizes with
      | None => inl ValueError
      | Some i => inr i
      end
  end.

(** The value stored under [session_key] when the key is new:
    [int(n_clusters) // 8]. *)
Definition initial_index (n_clusters : Z) : Z := (n_clusters / 8)%Z.

(** The callbacks; the state is the integer stored under [session_key]. *)
Definition prev_cluster (idx : Z) : Z :=
  if (idx >? 0)%Z then (idx - 1)%Z else idx.

Definition next_cluster (n_clusters idx : Z) : Z :=
  if (idx <? n_clusters - 1)%Z then (idx + 1)%Z else idx.

(** The two keyboard shortcuts, bound to the two buttons. *)
Inductive arrow : Type := ArrowLeft | ArrowRight.

Definition press (n_clusters : Z) (idx : Z) (key : arrow) : Z :=
  match key with
  | ArrowLeft => prev_cluster idx
  | ArrowRight => next_cluster n_clusters idx
  end.

(** The state after a sequence of key presses. *)
Definition presses (n_clusters : Z) (idx : Z) (keys : list arrow) : Z :=
  fold_left (press n_clusters) keys idx.

(** A sample of the context document. *)
Record sample : Type := { context : list string; answer : string }.

(** The context document, a [dict] in insertion order. *)
Definition samples_doc : Type := list (string * sample).

(** [samples[k]], [None] standing for [KeyError]. *)
Fixpoint samples_getitem (samples : samples_doc) (k : string)
    : option sample :=
  match samples with
  | [] => None
  | (k', v) :: samples' =>
      if String.eqb k k' then Some v else samples_getitem samples' k
  end.

(** [list(samples.keys())] *)
Definition idx_to_token_idx (samples : samples_doc) : list string :=
  map fst samples.

(** What the script hands to [st.write]: plain text, or markup with
    [unsafe_allow_html=True]. *)
Inductive written : Type :=
| Write (body : string)
| WriteHtml (body : string).

Definition separator : string :=
  "-----------------------------------------------------------".

(** The [for] loop over the indices of the chosen cluster: what was
    written, and the exception that ended the loop, if any. *)
Fixpoint show_samples (samples : samples_doc) (indices : list nat)
    : list written * option exception :=
  match indices with
  | [] => ([], None)
  | i :: indices' =>
      match nth_error (idx_to_token_idx samples) i with
      | None => ([], Some IndexError)
      | Some k =>
          match samples_getitem samples k with
          | None => ([], Some KeyError)
          | Some sample =>
              let context := context sample in
              let y := answer sample in
              let tokens := (context ++ [y])%list in
              let html := tokens_to_html tokens default_max_len in
              let '(rest, e) := show_samples samples indices' in
              (Write separator :: WriteHtml html :: rest, e)
          end
      end
  end.

(** [table[i]] for an integer [i]; the keys of the table are not
    negative. *)
Definition lookup_int {label : Type} (table : list (nat * label)) (i : Z)
    : option label :=
  if (i <? 0)%Z then None else lookup table (Z.to_nat i).

(** The end of the script: look the cluster up, write the heading, show
    its samples. *)
Definition display {label : Type}
    (label_eq_dec : forall a b : label, {a = b} + {a <> b})
    (labels_list : list label) (samples : samples_doc) (current_idx : Z)
    : list written * option exception :=
  match lookup_int (new_index_old_index label_eq_dec labels_list)
                   current_idx with
  | None => ([], Some KeyError)
  | Some current_cluster_id =>
      let '(rest, e) :=
        show_samples samples
          (getitem label_eq_dec
                   (cluster_to_tokens label_eq_dec labels_list)
                   current_cluster_id) in
      (Write ("## Cluster " ++ Py.str_int current_idx) :: rest, e)
  end.

(** What showing the sample at place [i] of the document writes. *)
Definition sample_writes (samples : samples_doc) (i : nat) : list written :=
  match nth_error samples i with
  | None => []
  | Some (_, sample) =>
      [Write separator;
       WriteHtml (tokens_to_html (context sample ++ [answer sample])%list
                                 default_max_len)]
  end.

(** Context documents for the examples: one with a sample for each index
    of [assignment_aba], one that is a sample short. *)
Definition samples_three : samples_doc :=
  [("s0", {| context := ["the"]; answer := "cat" |});
   ("s1", {| context := []; answer := "dog" |});
   ("s2", {| context := ["a"; "b"]; answer := "c" |})].

Definition samples_two : samples_doc :=
  [("s0", {| context := ["the"]; answer := "cat" |});
   ("s1", {| context := []; answer := "dog" |})].



(** The five characters the renderer escapes. *)
Definition special : list ascii := ["$"; "&"; "_"; "*"; "`"]%char.

(** The five calls of [replace], in the order of the source. *)
Definition replace_chain (token : string) : string :=
  let token := Py.replace "$" "\$" token in
  let token := Py.replace "&" "&amp;" token in
  let token := Py.replace "_" "\_" token in
  let token := Py.replace "*" "\*" token in
  let token := Py.replace "`" "\`" token in
  token.

(** The line-break characters as characters. *)
Definition line_break (c : ascii) : bool :=
  Ascii.eqb c "010" || Ascii.eqb c "013" || Ascii.eqb c "011"
  || Ascii.eqb c "012".

(** ** Strings *)

Lemma append_nil_r (s : string) : s ++ "" = s.
Proof. induction s as [|c s IH]; simpl; [reflexivity | now rewrite IH]. Qed.

Lemma append_assoc (s1 s2 s3 : string) : (s1 ++ s2) ++ s3 = s1 ++ (s2 ++ s3).
Proof. induction s1 as [|c s1 IH]; simpl; [reflexivity | now rewrite IH]. Qed.

Lemma join_app (l1 l2 : list string) :
  join (l1 ++ l2)%list = join l1 ++ join l2.
Proof.
  induction l1 as [|x l1 IH]; simpl; [reflexivity|].
  now rewrite IH, append_assoc.
Qed.

Lemma join_cons (x : string) (l : list string) : join (x :: l) = x ++ join l.
Proof. reflexivity. Qed.

(** ** The five replacements amount to escaping every character at once *)

Lemma replace_append old new s1 s2 :
  Py.replace old new (s1 ++ s2)
  = Py.replace old new s1 ++ Py.replace old new s2.
Proof.
  induction s1 as [|c s1 IH]; simpl; [reflexivity|].
  rewrite IH. destruct (Ascii.eqb c old); simpl; [|reflexivity].
  now rewrite append_assoc.
Qed.

Lemma replace_chain_escape (token : string) :
  Py.replace "`" "\`"
    (Py.replace "*" "\*"
      (Py.replace "_" "\_"
        (Py.replace "&" "&amp;" (Py.replace "$" "\$" token))))
  = escape token.
Proof.
  induction token as [|c token IH]; [reflexivity|].
  cbn [escape]. rewrite <- IH. unfold escape_char.
  cbn [Py.replace].
  destruct (Ascii.eqb c "$") eqn:E1.
  { apply Ascii.eqb_eq in E1. subst c. reflexivity. }
  cbn [Py.replace]. destruct (Ascii.eqb c "&") eqn:E2.
  { apply Ascii.eqb_eq in E2. subst c. reflexivity. }
  cbn [Py.replace]. destruct (Ascii.eqb c "_") eqn:E3.
  { apply Ascii.eqb_eq in E3. subst c. reflexivity. }
  cbn [Py.replace]. destruct (Ascii.eqb c "*") eqn:E4.
  { apply Ascii.eqb_eq in E4. subst c. reflexivity. }
  cbn [Py.replace]. destruct (Ascii.eqb c "`") eqn:E5.
  { apply Ascii.eqb_eq in E5. subst c. reflexivity. }
  reflexivity.
Qed.

(** ** The loop *)

Lemma loop_body_cell n html txt i token :
  loop_body n (html, txt) (i, token)
  = (html ++ token_cell (background_at n i) token, txt ++ token).
Proof.
  unfold loop_body, token_cell, background_at, bordered_cell.
  replace (negb (Z.of_nat i =? Z.of_nat n - 1)%Z) with (negb (Nat.eqb (S i) n)).
  2:{ f_equal. destruct (Nat.eqb_spec (S i) n) as [E|E];
      [symmetry; apply Z.eqb_eq | symmetry; apply Z.eqb_neq]; lia. }
  destruct (Nat.eqb (S i) n); cbn [negb];
    (destruct (all_newline token);
     [ now rewrite !append_assoc
     | now rewrite replace_chain_escape ]).
Qed.

Lemma fold_loop_body n w : forall k html txt,
  fold_left (loop_body n) (combine (seq k (List.length w)) w) (html, txt)
  = (html ++ join (map (fun it => token_cell (background_at n (fst it)) (snd it))
                       (combine (seq k (List.length w)) w)),
     txt ++ join w).
Proof.
  induction w as [|t w IH]; intros k html txt;
    cbn [List.length seq combine fold_left map join fold_right fst snd].
  - now rewrite !append_nil_r.
  - rewrite loop_body_cell, IH. fold (join w).
    cbn [map join fold_right]. now rewrite !append_assoc.
Qed.

Lemma cells_of_enumerate w : forall n k,
  k + List.length w = n ->
  map (fun it => token_cell (background_at n (fst it)) (snd it))
      (combine (seq k (List.length w)) w)
  = window_cells w.
Proof.
  induction w as [|t w IH]; intros n k Hn; simpl; [reflexivity|].
  simpl in Hn. rewrite (IH n (S k)) by lia. f_equal.
  unfold background_at, background_before.
  destruct w as [|t' w]; simpl in Hn.
  - replace (S k) with n by lia. now rewrite Nat.eqb_refl.
  - destruct (Nat.eqb_spec (S k) n); [lia | reflexivity].
Qed.

(** The code computes the placeholder or the marker followed by the cells
    of the window. *)
Lemma tokens_to_html_eq tokens max_len :
  tokens_to_html tokens max_len
  = if withheld tokens max_len then placeholder
    else marker tokens max_len ++ join (window_cells (window tokens max_len)).
Proof.
  unfold tokens_to_html, withheld, marker, window, Py.enumerate.
  set (w := Py.slice_from_neg tokens max_len).
  rewrite fold_loop_body, (cells_of_enumerate w (List.length w) 0) by lia.
  cbn [String.append].
  destruct (Z.of_nat (List.length tokens) >? max_len)%Z; reflexivity.
Qed.

(** ** The slice [tokens[-max_len:]] *)

Lemma window_last tokens max_len :
  (0 < max_len)%Z ->
  window tokens max_len
  = skipn (List.length tokens - Z.to_nat max_len) tokens.
Proof.
  intros Hpos. unfold window, Py.slice_from_neg.
  destruct (Z.ltb_spec (- max_len) 0); [|lia].
  f_equal. lia.
Qed.

Lemma window_all tokens max_len :
  (0 <= max_len)%Z -> (Z.of_nat (List.length tokens) <= max_len)%Z ->
  window tokens max_len = tokens.
Proof.
  intros Hpos Hlen. unfold window, Py.slice_from_neg.
  destruct (Z.ltb_spec (- max_len) 0).
  - replace (Z.to_nat _) with 0 by lia. reflexivity.
  - replace (Z.to_nat _) with 0 by lia. reflexivity.
Qed.

(** ** Cells of a window *)

Lemma window_cells_length w : List.length (window_cells w) = List.length w.
Proof. induction w as [|t w IH]; simpl; [reflexivity | now rewrite IH]. Qed.

Lemma window_cells_app pre token post :
  window_cells (pre ++ token :: post)%list
  = (map (token_cell plain) pre
     ++ token_cell (background_before post) token :: window_cells post)%list.
Proof.
  induction pre as [|t pre IH]; [reflexivity|].
  cbn [List.app window_cells map]. rewrite IH. f_equal.
  destruct pre; reflexivity.
Qed.

(** The markup never equals the placeholder: it is empty or starts
    with the character [<]. *)
Lemma markup_not_placeholder tokens max_len :
  marker tokens max_len ++ join (window_cells (window tokens max_len))
  <> placeholder.
Proof.
  unfold marker.
  destruct (Z.of_nat (List.length tokens) >? max_len)%Z; [discriminate|].
  destruct (window tokens max_len) as [|t w]; [discriminate|].
  cbn [window_cells join fold_right String.append].
  unfold token_cell. destruct (all_newline t); discriminate.
Qed.

Lemma tokens_to_html_placeholder_iff tokens max_len :
  tokens_to_html tokens max_len = placeholder
  <-> withheld tokens max_len = true.
Proof.
  rewrite tokens_to_html_eq. destruct (withheld tokens max_len).
  - tauto.
  - split; [|discriminate]. intros H.
    now apply markup_not_placeholder in H.
Qed.

Lemma escape_join (token : string) :
  escape token = join (map escape_char (list_ascii_of_string token)).
Proof.
  induction token as [|c token IH]; simpl; [reflexivity | now rewrite IH].
Qed.

(** ** A token at a given place of the rendered window *)

Section Rendered.

Variables (tokens : list string) (max_len : Z).
Variables (pre : list string) (token : string) (post : list string).

Hypothesis Hwindow : window tokens max_len = (pre ++ token :: post)%list.
Hypothesis Hshown : withheld tokens max_len = false.

Lemma tokens_to_html_at :
  tokens_to_html tokens max_len
  = marker tokens max_len
    ++ join (map (token_cell plain) pre)
    ++ token_cell (background_before post) token
    ++ join (window_cells post).
Proof.
  rewrite tokens_to_html_eq, Hshown, Hwindow, window_cells_app.
  now rewrite join_app, join_cons.
Qed.

(** C2 (as amended): a token made only of line-break characters is
    rendered as ONE bordered cell that holds one line-break glyph per
    character of the token, followed by as many [<br>] line breaks. *)
Theorem newline_policy :
  all_newline token = true ->
  tokens_to_html tokens max_len
  = marker tokens max_len
    ++ join (map (token_cell plain) pre)
    ++ (bordered_cell (background_before post)
          (Py.str_mul (String.length token) glyph)
        ++ Py.str_mul (String.length token) "<br>")
    ++ join (window_cells post).
Proof.
  intros Hnl. rewrite tokens_to_html_at.
  unfold token_cell at 2. now rewrite Hnl.
Qed.

(** C6: in a rendered token that is not a newline token, every
    occurrence of [$], [&], [_], [*] and backtick is replaced by its
    escaped form, and every other character is kept, before the token is
    put in its cell. *)
Theorem escaping_policy :
  all_newline token = false ->
  tokens_to_html tokens max_len
  = marker tokens max_len
    ++ join (map (token_cell plain) pre)
    ++ bordered_cell (background_before post)
         (join (map escape_char (list_ascii_of_string token)))
    ++ join (window_cells post)
  /\ escape_char "$" = "\$" /\ escape_char "&" = "&amp;"
  /\ escape_char "_" = "\_" /\ escape_char "*" = "\*"
  /\ escape_char "`" = "\`"
  /\ forall c : ascii,
       ~ In c ["$"; "&"; "_"; "*"; "`"]%char -> escape_char c = String c "".
Proof.
  intros Hnl. repeat split.
  - rewrite tokens_to_html_at.
    unfold token_cell at 2. now rewrite Hnl, escape_join.
  - intros c Hc. unfold escape_char. simpl in Hc.
    repeat match goal with
           | |- context [Ascii.eqb c ?x] =>
               destruct (Ascii.eqb_spec c x); [subst; tauto|]
           end.
    reflexivity.
Qed.

End Rendered.

(** ** Cells and the marker as text *)

(** Every cell opens with a styled [span]; the marker does not. *)
Lemma token_cell_opening (background token : string) :
  String.prefix "<span style=" (token_cell background token) = true.
Proof.
  unfold token_cell, bordered_cell, span_open.
  destruct (all_newline token); reflexivity.
Qed.

Lemma token_cell_not_marker (background token : string) :
  token_cell background token <> "<span>...</span>".
Proof.
  intros H. pose proof (token_cell_opening background token) as Ho.
  rewrite H in Ho. discriminate.
Qed.

Lemma window_cells_no_marker (w : list string) :
  ~ In "<span>...</span>" (window_cells w).
Proof.
  induction w as [|t w IH]; [intros []|].
  cbn [window_cells]. intros [H|H]; [|now apply IH].
  now apply token_cell_not_marker in H.
Qed.

Lemma cells_do_not_start_with_marker (w : list string) :
  String.prefix "<span>...</span>" (join (window_cells w)) = false.
Proof.
  destruct w as [|t w]; [reflexivity|].
  cbn [window_cells join fold_right].
  unfold token_cell, bordered_cell, span_open.
  destruct (all_newline t); reflexivity.
Qed.

Lemma marker_is_prefix (s : string) :
  String.prefix "<span>...</span>" ("<span>...</span>" ++ s) = true.
Proof. destruct s; reflexivity. Qed.

(** The background colour is written into the opening tag of the cell. *)
Lemma token_cell_colour (token : string) :
  Py.contains "background-color: white;" (token_cell plain token) = true
  /\ Py.contains "background-color: #FF9999;" (token_cell highlight token)
     = true.
Proof.
  unfold token_cell, bordered_cell, span_open, plain, highlight.
  destruct (all_newline token); split; reflexivity.
Qed.

Lemma token_cell_backgrounds_differ (token : string) :
  token_cell plain token <> token_cell highlight token.
Proof.
  intros H.
  pose (opening := "<span style=" ++ dquote
                   ++ "border: 1px solid #DDD; background-color: white;").
  assert (Hp : String.prefix opening (token_cell plain token) = true).
  { unfold token_cell, bordered_cell, span_open, plain.
    destruct (all_newline token); reflexivity. }
  assert (Hh : String.prefix opening (token_cell highlight token) = false).
  { unfold token_cell, bordered_cell, span_open, highlight.
    destruct (all_newline token); reflexivity. }
  rewrite H, Hh in Hp. discriminate.
Qed.

(** C1 (as amended): when the raw concatenation of the tokens of the
    rendered window, [tokens[-max_len:]], contains [</], the result is the
    fixed placeholder and no markup. *)
Theorem security_check_on_window (tokens : list string) (max_len : Z) :
  Py.contains "</" (join (window tokens max_len)) = true ->
  tokens_to_html tokens max_len = placeholder.
Proof. intros H. now apply tokens_to_html_placeholder_iff. Qed.

(** C4: with [max_len > 0] and content that is not withheld, a sequence
    longer than [max_len] is rendered as the ellipsis marker, the text
    [<span>...</span>], followed by the cells of exactly its last
    [max_len] tokens; a sequence shorter than [max_len] is rendered as one
    cell per token and nothing else: the output does not start with the
    marker and none of its elements is the marker. *)
Theorem truncation_policy (tokens : list string) (max_len : Z) :
  (0 < max_len)%Z ->
  withheld tokens max_len = false ->
  ((Z.of_nat (List.length tokens) > max_len)%Z ->
     let last_tokens :=
       skipn (List.length tokens - Z.to_nat max_len) tokens in
     tokens_to_html tokens max_len
     = "<span>...</span>" ++ join (window_cells last_tokens)
     /\ List.length last_tokens = Z.to_nat max_len
     /\ String.prefix "<span>...</span>" (tokens_to_html tokens max_len)
        = true)
  /\ ((Z.of_nat (List.length tokens) < max_len)%Z ->
       tokens_to_html tokens max_len = join (window_cells tokens)
       /\ List.length (window_cells tokens) = List.length tokens
       /\ String.prefix "<span>...</span>" (tokens_to_html tokens max_len)
          = false
       /\ ~ In "<span>...</span>" (window_cells tokens)).
Proof.
  intros Hpos Hshown. rewrite tokens_to_html_eq, Hshown. unfold marker.
  split; intros Hlen.
  - rewrite window_last by assumption.
    destruct (Z.gtb_spec (Z.of_nat (List.length tokens)) max_len); [|lia].
    split; [reflexivity|]. split; [rewrite length_skipn; lia|].
    apply marker_is_prefix.
  - rewrite window_all by lia.
    destruct (Z.gtb_spec (Z.of_nat (List.length tokens)) max_len); [lia|].
    split; [reflexivity|]. split; [apply window_cells_length|].
    split; [apply cells_do_not_start_with_marker|].
    apply window_cells_no_marker.
Qed.

(** C8: the final token of the rendered window gets the highlight
    background, every token before it the common plain background; the
    colour is written into the opening tag of the cell
    ([background-color: white;] and [background-color: #FF9999;]), so the
    highlighted cell of a token differs from its plain cell. *)
Theorem highlight_policy (tokens : list string) (max_len : Z)
    (pre : list string) (final : string) :
  window tokens max_len = (pre ++ [final])%list ->
  withheld tokens max_len = false ->
  tokens_to_html tokens max_len
  = marker tokens max_len
    ++ join (map (token_cell plain) pre) ++ token_cell highlight final
  /\ plain <> highlight
  /\ (forall token, token_cell plain token <> token_cell highlight token)
  /\ (forall token,
        Py.contains "background-color: white;" (token_cell plain token)
        = true)
  /\ (forall token,
        Py.contains "background-color: #FF9999;"
                    (token_cell highlight token) = true).
Proof.
  intros Hw Hshown. split; [|split; [discriminate|]].
  - rewrite (tokens_to_html_at tokens max_len pre final [] Hw Hshown).
    cbn [window_cells join fold_right background_before].
    now rewrite append_nil_r.
  - split; [apply token_cell_backgrounds_differ|].
    split; intros token; apply token_cell_colour.
Qed.

(** C9: for the empty sequence (and [max_len >= 0]) the result is the
    empty markup: no cell and no ellipsis marker; and on every input the
    function returns either the placeholder or the markup, nothing else. *)
Theorem empty_sequence (max_len : Z) :
  (0 <= max_len)%Z ->
  tokens_to_html [] max_len = ""
  /\ forall tokens,
       tokens_to_html tokens max_len = placeholder
       \/ tokens_to_html tokens max_len
          = marker tokens max_len
            ++ join (window_cells (window tokens max_len)).
Proof.
  intros Hpos. split.
  - rewrite tokens_to_html_eq. unfold withheld, marker.
    rewrite window_all by (simpl; lia). simpl.
    destruct (Z.gtb_spec 0 max_len); [lia | reflexivity].
  - intros tokens. rewrite tokens_to_html_eq.
    destruct (withheld tokens max_len); [now left | now right].
Qed.

(** C10: an empty-string token passes the all-line-breaks test, so it is
    rendered as one bordered cell with nothing in it (no glyph), followed
    by no line break, and nothing is escaped. *)
Theorem empty_token_cell (tokens : list string) (max_len : Z)
    (pre post : list string) :
  window tokens max_len = (pre ++ "" :: post)%list ->
  withheld tokens max_len = false ->
  all_newline "" = true
  /\ tokens_to_html tokens max_len
     = marker tokens max_len
       ++ join (map (token_cell plain) pre)
       ++ (span_open (background_before post) ++ "</span>")
       ++ join (window_cells post).
Proof.
  intros Hw Hshown. split; [reflexivity|].
  rewrite (tokens_to_html_at tokens max_len pre "" post Hw Hshown).
  change (token_cell (background_before post) "")
    with ((span_open (background_before post) ++ "</span>") ++ "").
  now rewrite append_nil_r.
Qed.

(** ** Lists: enumeration, lookup, strongly sorted lists *)

Section ListFacts.

Context {A : Type}.

Lemma combine_seq_snoc (l : list A) (x : A) : forall k,
  combine (seq k (List.length (l ++ [x])%list)) (l ++ [x])%list
  = (combine (seq k (List.length l)) l ++ [(k + List.length l, x)])%list.
Proof.
  induction l as [|y l IH]; intros k; simpl.
  - now rewrite Nat.add_0_r.
  - rewrite IH. now rewrite Nat.add_succ_r.
Qed.

Lemma enumerate_snoc (l : list A) (x : A) :
  Py.enumerate (l ++ [x])%list
  = (Py.enumerate l ++ [(List.length l, x)])%list.
Proof. unfold Py.enumerate. now rewrite combine_seq_snoc. Qed.

Lemma lookup_combine_seq (l : list A) : forall k i,
  lookup (combine (seq k (List.length l)) l) (k + i) = nth_error l i.
Proof.
  induction l as [|y l IH]; intros k i; simpl.
  - now destruct i.
  - destruct i as [|i].
    + now rewrite Nat.add_0_r, Nat.eqb_refl.
    + destruct (Nat.eqb_spec (k + S i) k); [lia|].
      rewrite <- Nat.add_succ_comm. apply IH.
Qed.

Lemma map_fst_combine_seq (l : list A) : forall k,
  map fst (combine (seq k (List.length l)) l) = seq k (List.length l).
Proof.
  induction l as [|y l IH]; intros k; simpl; [reflexivity|].
  now rewrite IH.
Qed.

Lemma map_fst_enumerate (l : list A) :
  map fst (Py.enumerate l) = seq 0 (List.length l).
Proof. apply map_fst_combine_seq. Qed.

Lemma lookup_enumerate (l : list A) (i : nat) :
  lookup (Py.enumerate l) i = nth_error l i.
Proof. exact (lookup_combine_seq l 0 i). Qed.

Variable R : A -> A -> Prop.

Lemma StronglySorted_snoc (l : list A) (x : A) :
  StronglySorted R l -> Forall (fun a => R a x) l ->
  StronglySorted R (l ++ [x])%list.
Proof.
  induction 1 as [|a l Hl IH Ha]; intros Hx; simpl.
  - repeat constructor.
  - inversion_clear Hx as [|? ? Hax Hlx]. constructor; [now apply IH|].
    apply Forall_app. split; [assumption | now constructor].
Qed.

Lemma StronglySorted_weaken (R' : A -> A -> Prop) (l : list A) :
  (forall a b, In a l -> In b l -> R a b -> R' a b) ->
  StronglySorted R l -> StronglySorted R' l.
Proof.
  intros Himp Hl. induction Hl as [|a l Hl IH Ha]; constructor.
  - apply IH. intros x y Hx Hy. apply Himp; now right.
  - rewrite Forall_forall in *. intros b Hb.
    apply Himp; [now left | now right | now apply Ha].
Qed.

Lemma StronglySorted_nth_error (l : list A) : StronglySorted R l ->
  forall i j a b, i < j ->
    nth_error l i = Some a -> nth_error l j = Some b -> R a b.
Proof.
  induction 1 as [|x l Hl IH Hx]; intros i j a b Hij Ha Hb.
  - now destruct i.
  - destruct j as [|j]; [lia|]. simpl in Hb.
    destruct i as [|i]; simpl in Ha.
    + injection Ha as <-. rewrite Forall_forall in Hx.
      apply Hx. eapply nth_error_In, Hb.
    + apply (IH i j); [lia | assumption | assumption].
Qed.

End ListFacts.

(** ** The stable descending sort *)

Section StableSort.

Context {A : Type}.
Variable key : A -> nat.

Lemma insert_desc_perm (x : A) (l : list A) :
  Permutation (x :: l) (Py.insert_desc key x l).
Proof.
  induction l as [|y l IH]; simpl; [reflexivity|].
  destruct (Nat.ltb (key x) (key y)); [|reflexivity].
  rewrite perm_swap. now constructor.
Qed.

Lemma sorted_reverse_perm (l : list A) :
  Permutation l (Py.sorted_reverse key l).
Proof.
  induction l as [|x l IH]; simpl; [constructor|].
  rewrite <- insert_desc_perm. now constructor.
Qed.

Lemma sorted_reverse_In (l : list A) (x : A) :
  In x (Py.sorted_reverse key l) <-> In x l.
Proof.
  split; apply Permutation_in;
    [symmetry |]; apply sorted_reverse_perm.
Qed.

Lemma sorted_reverse_NoDup (l : list A) :
  NoDup l -> NoDup (Py.sorted_reverse key l).
Proof. apply Permutation_NoDup, sorted_reverse_perm. Qed.

Lemma sorted_reverse_length (l : list A) :
  List.length (Py.sorted_reverse key l) = List.length l.
Proof. symmetry. apply Permutation_length, sorted_reverse_perm. Qed.

(** [p] gives the place of an element in the list being sorted; the
    result is sorted by descending key and then by ascending place. *)
Variable p : A -> nat.

Local Abbreviation key_then_place := (key_then_place key p).

Lemma insert_desc_sorted (x : A) (l : list A) :
  StronglySorted key_then_place l ->
  Forall (fun y => p x < p y) l ->
  StronglySorted key_then_place (Py.insert_desc key x l).
Proof.
  induction 1 as [|y l Hl IH Hy]; intros Hx; simpl.
  - repeat constructor.
  - inversion_clear Hx as [|? ? Hxy Hxl].
    destruct (Nat.ltb_spec (key x) (key y)) as [Hlt|Hge].
    + constructor; [now apply IH|].
      rewrite Forall_forall in *. intros z Hz.
      apply (Permutation_in _ (Permutation_sym (insert_desc_perm x l))) in Hz.
      destruct Hz as [<-|Hz]; [now left | now apply Hy].
    + constructor; [now constructor|].
      rewrite Forall_forall in *. intros z [<-|Hz].
      * unfold key_then_place. lia.
      * specialize (Hy z Hz). specialize (Hxl z Hz).
        unfold key_then_place in *. lia.
Qed.

Lemma sorted_reverse_stable (l : list A) :
  StronglySorted (fun a b => p a < p b) l ->
  StronglySorted key_then_place (Py.sorted_reverse key l).
Proof.
  induction 1 as [|x l Hl IH Hx]; simpl; [constructor|].
  apply insert_desc_sorted; [assumption|].
  rewrite Forall_forall in *. intros y Hy.
  apply Hx. now apply sorted_reverse_In.
Qed.

(** Two rearrangements of the same elements that are both in that order
    are the same list: the result of a stable descending sort is unique,
    whatever the algorithm. *)
Lemma key_then_place_unique (s1 : list A) : forall s2,
  StronglySorted key_then_place s1 -> StronglySorted key_then_place s2 ->
  Permutation s1 s2 -> s1 = s2.
Proof.
  induction s1 as [|a s1 IH]; intros s2 H1 H2 Hperm.
  - now apply Permutation_nil in Hperm.
  - destruct s2 as [|b s2].
    + symmetry in Hperm. now apply Permutation_nil in Hperm.
    + apply StronglySorted_inv in H1, H2.
      destruct H1 as [H1 Ha], H2 as [H2 Hb].
      rewrite Forall_forall in Ha, Hb.
      assert (Hab : a = b).
      { pose proof (Permutation_in a Hperm (or_introl eq_refl)) as Ia.
        pose proof (Permutation_in b (Permutation_sym Hperm)
                      (or_introl eq_refl)) as Ib.
        destruct Ia as [E|Ia]; [now symmetry|].
        destruct Ib as [E|Ib]; [assumption|].
        specialize (Ha b Ib). specialize (Hb a Ia).
        unfold key_then_place in Ha, Hb. lia. }
      subst b. f_equal. apply IH; trivial.
      eapply Permutation_cons_inv, Hperm.
Qed.

Lemma sorted_reverse_unique (l s : list A) :
  StronglySorted (fun a b => p a < p b) l ->
  Permutation l s -> StronglySorted key_then_place s ->
  s = Py.sorted_reverse key l.
Proof.
  intros Hl Hperm Hs. apply key_then_place_unique; trivial.
  - now apply sorted_reverse_stable.
  - rewrite <- Hperm. apply sorted_reverse_perm.
Qed.

End StableSort.

(** ** The grouping step *)

Section Grouping.

Variable label : Type.
Variable label_eq_dec : forall a b : label, {a = b} + {a <> b}.

Local Abbreviation cluster_to_tokens := (cluster_to_tokens label_eq_dec).
Local Abbreviation getitem := (getitem label_eq_dec).
Local Abbreviation append_at := (append_at label_eq_dec).
Local Abbreviation first_seen := (first_seen label_eq_dec).
Local Abbreviation group_size := (group_size label_eq_dec).
Local Abbreviation positions := (positions label_eq_dec).

Lemma cluster_to_tokens_snoc (l : list label) (x : label) :
  cluster_to_tokens (l ++ [x])
  = append_at (cluster_to_tokens l) x (List.length l).
Proof.
  unfold cluster_to_tokens.
  now rewrite enumerate_snoc, fold_left_app.
Qed.

Lemma keys_append_at_in d k i :
  In k (keys d) -> keys (append_at d k i) = keys d.
Proof.
  induction d as [|[k' v] d IH]; simpl; [tauto|].
  intros Hin. destruct (label_eq_dec k k') as [E|E]; simpl; [reflexivity|].
  destruct Hin as [Hk|Hin]; [congruence|]. now rewrite IH.
Qed.

Lemma keys_append_at_notin d k i :
  ~ In k (keys d) -> keys (append_at d k i) = (keys d ++ [k])%list.
Proof.
  induction d as [|[k' v] d IH]; simpl; [reflexivity|].
  intros Hnot. destruct (label_eq_dec k k') as [E|E]; simpl.
  - subst. tauto.
  - rewrite IH; tauto.
Qed.

Lemma getitem_append_at d k i c :
  getitem (append_at d k i) c
  = if label_eq_dec c k then (getitem d k ++ [i])%list else getitem d c.
Proof.
  induction d as [|[k' v] d IH]; simpl.
  - destruct (label_eq_dec c k); reflexivity.
  - destruct (label_eq_dec k k') as [E|E]; simpl.
    + subst k'. destruct (label_eq_dec c k); reflexivity.
    + destruct (label_eq_dec c k') as [E'|E'].
      * subst k'. destruct (label_eq_dec c k); [congruence | reflexivity].
      * apply IH.
Qed.

Lemma nonempty_append_at d k i :
  Forall (fun kv => snd kv <> []) d ->
  Forall (fun kv => snd kv <> []) (append_at d k i).
Proof.
  induction 1 as [|[k' v] d Hv Hd IH]; simpl.
  - repeat constructor. discriminate.
  - destruct (label_eq_dec k k'); constructor; trivial.
    simpl. now destruct v.
Qed.

(** The keys are exactly the labels present, each once. *)
Lemma keys_cluster_to_tokens (l : list label) :
  NoDup (keys (cluster_to_tokens l))
  /\ forall c, In c (keys (cluster_to_tokens l)) <-> In c l.
Proof.
  induction l as [|x l [Hnd Hin]] using rev_ind.
  - split; [constructor | reflexivity].
  - rewrite cluster_to_tokens_snoc.
    destruct (in_dec label_eq_dec x (keys (cluster_to_tokens l))) as [Hx|Hx].
    + rewrite keys_append_at_in by assumption. split; [assumption|].
      intros c. rewrite in_app_iff, Hin. simpl.
      split; [tauto|]. intros [H|[<-|[]]]; [assumption | now apply Hin].
    + rewrite keys_append_at_notin by assumption. split.
      * apply NoDup_app. repeat split; trivial.
        -- repeat constructor. simpl. tauto.
        -- intros a Ha [<-|[]]. contradiction.
      * intros c. rewrite !in_app_iff, Hin. reflexivity.
Qed.

(** No group is empty. *)
Lemma groups_nonempty (l : list label) :
  Forall (fun kv => snd kv <> []) (cluster_to_tokens l).
Proof.
  induction l as [|x l IH] using rev_ind; [constructor|].
  rewrite cluster_to_tokens_snoc. now apply nonempty_append_at.
Qed.

(** A group holds the indices of the samples carrying its label, in
    increasing order. *)
Lemma getitem_positions (l : list label) (c : label) :
  getitem (cluster_to_tokens l) c = positions l c.
Proof.
  unfold positions.
  induction l as [|x l IH] using rev_ind; [reflexivity|].
  rewrite cluster_to_tokens_snoc, getitem_append_at, enumerate_snoc.
  rewrite filter_app, map_app. simpl.
  destruct (label_eq_dec c x) as [->|E].
  - destruct (label_eq_dec x x); [|congruence]. now rewrite IH.
  - destruct (label_eq_dec x c); [congruence|].
    simpl. now rewrite IH, app_nil_r.
Qed.

(** The size of a group is the number of samples carrying its label. *)
Lemma group_size_count_occ (l : list label) (c : label) :
  group_size l c = count_occ label_eq_dec l c.
Proof.
  unfold group_size.
  induction l as [|x l IH] using rev_ind; [reflexivity|].
  rewrite cluster_to_tokens_snoc, getitem_append_at, count_occ_app.
  simpl. destruct (label_eq_dec c x) as [->|E].
  - destruct (label_eq_dec x x); [|congruence].
    rewrite length_app, IH. reflexivity.
  - destruct (label_eq_dec x c); [congruence|]. rewrite IH. lia.
Qed.

Lemma first_seen_lt (l : list label) (c : label) :
  In c l -> first_seen c l < List.length l.
Proof.
  induction l as [|x l IH]; simpl; [tauto|].
  intros Hin. destruct (label_eq_dec c x) as [E|E]; [lia|].
  destruct Hin as [->|Hin]; [congruence|]. apply IH in Hin. lia.
Qed.

Lemma first_seen_app_in (l l' : list label) (c : label) :
  In c l -> first_seen c (l ++ l') = first_seen c l.
Proof.
  induction l as [|x l IH]; simpl; [tauto|].
  intros Hin. destruct (label_eq_dec c x) as [E|E]; [reflexivity|].
  destruct Hin as [->|Hin]; [congruence|]. now rewrite IH.
Qed.

Lemma first_seen_app_notin (l l' : list label) (c : label) :
  ~ In c l -> first_seen c (l ++ l') = List.length l + first_seen c l'.
Proof.
  induction l as [|x l IH]; simpl; [reflexivity|].
  intros Hnot. destruct (label_eq_dec c x) as [E|E]; [subst; tauto|].
  rewrite IH; tauto.
Qed.

(** The keys are in first-seen order. *)
Lemma keys_first_seen_order (l : list label) :
  StronglySorted (fun a b => first_seen a l < first_seen b l)
                 (keys (cluster_to_tokens l)).
Proof.
  induction l as [|x l IH] using rev_ind; [constructor|].
  destruct (keys_cluster_to_tokens l) as [_ Hin].
  assert (Hold : StronglySorted
            (fun a b => first_seen a (l ++ [x]) < first_seen b (l ++ [x]))
            (keys (cluster_to_tokens l))).
  { revert IH. apply StronglySorted_weaken. intros a b Ha Hb.
    rewrite !first_seen_app_in by now apply Hin. trivial. }
  rewrite cluster_to_tokens_snoc.
  destruct (in_dec label_eq_dec x (keys (cluster_to_tokens l))) as [Hx|Hx].
  - now rewrite keys_append_at_in.
  - rewrite keys_append_at_notin by assumption.
    apply StronglySorted_snoc; [assumption|].
    rewrite Forall_forall. intros a Ha.
    rewrite first_seen_app_in by now apply Hin.
    rewrite first_seen_app_notin by (now rewrite <- Hin).
    apply Hin, first_seen_lt in Ha. lia.
Qed.

End Grouping.

(** ** The tables do not depend on how label equality is decided *)

Section Deciders.

Variable label : Type.
Variables dec1 dec2 : forall a b : label, {a = b} + {a <> b}.

Lemma getitem_decider d k : getitem dec1 d k = getitem dec2 d k.
Proof.
  induction d as [|[k' v] d IH]; simpl; [reflexivity|].
  destruct (dec1 k k'), (dec2 k k'); congruence.
Qed.

Lemma append_at_decider d k i : append_at dec1 d k i = append_at dec2 d k i.
Proof.
  induction d as [|[k' v] d IH]; simpl; [reflexivity|].
  destruct (dec1 k k'), (dec2 k k'); congruence.
Qed.

Lemma cluster_to_tokens_decider l :
  cluster_to_tokens dec1 l = cluster_to_tokens dec2 l.
Proof.
  unfold cluster_to_tokens. generalize (@nil (label * list nat)).
  induction (Py.enumerate l) as [|it e IH]; intros d; simpl; [reflexivity|].
  now rewrite append_at_decider, IH.
Qed.

Lemma sorted_reverse_key (key1 key2 : label -> nat) l :
  (forall c, key1 c = key2 c) ->
  Py.sorted_reverse key1 l = Py.sorted_reverse key2 l.
Proof.
  intros Hkey. induction l as [|x l IH]; simpl; [reflexivity|].
  rewrite IH. generalize (Py.sorted_reverse key2 l) as s.
  induction s as [|y s IHs]; simpl; [reflexivity|].
  now rewrite !Hkey, IHs.
Qed.

Lemma new_index_old_index_decider l :
  new_index_old_index dec1 l = new_index_old_index dec2 l.
Proof.
  unfold new_index_old_index. rewrite cluster_to_tokens_decider.
  f_equal. apply sorted_reverse_key. intros c.
  now rewrite getitem_decider.
Qed.

End Deciders.

(** ** The rank table *)

Section Ranking.

Variable label : Type.
Variable label_eq_dec : forall a b : label, {a = b} + {a <> b}.

Local Abbreviation cluster_to_tokens := (cluster_to_tokens label_eq_dec).
Local Abbreviation first_seen := (first_seen label_eq_dec).
Local Abbreviation group_size := (group_size label_eq_dec).
Local Abbreviation rank := (rank label_eq_dec).

Local Abbreviation ranked := (ranked_labels label_eq_dec).

Lemma lookup_rank (l : list label) (i : nat) :
  lookup (new_index_old_index label_eq_dec l) i = nth_error (ranked l) i.
Proof. apply lookup_enumerate. Qed.

Lemma ranked_sorted (l : list label) :
  StronglySorted
    (key_then_place (group_size l) (fun c => first_seen c l)) (ranked l).
Proof. apply sorted_reverse_stable, keys_first_seen_order. Qed.

Lemma ranked_NoDup (l : list label) : NoDup (ranked l).
Proof. apply sorted_reverse_NoDup, keys_cluster_to_tokens. Qed.

Lemma ranked_In (l : list label) (c : label) : In c (ranked l) <-> In c l.
Proof.
  unfold ranked. rewrite sorted_reverse_In. apply keys_cluster_to_tokens.
Qed.

Lemma ranked_length (l : list label) :
  List.length (ranked l) = List.length (nodup label_eq_dec l).
Proof.
  apply Permutation_length, NoDup_Permutation.
  - apply ranked_NoDup.
  - apply NoDup_nodup.
  - intros c. now rewrite ranked_In, nodup_In.
Qed.

Lemma ranked_descending (l : list label) (i j : nat) (ci cj : label) :
  i <= j ->
  nth_error (ranked l) i = Some ci -> nth_error (ranked l) j = Some cj ->
  group_size l cj <= group_size l ci.
Proof.
  intros Hij Hi Hj. destruct (Nat.eq_dec i j) as [->|Hne].
  - rewrite Hi in Hj. injection Hj as ->. lia.
  - assert (Hlt : i < j) by lia.
    pose proof (StronglySorted_nth_error _ _ (ranked_sorted l)
                  i j ci cj Hlt Hi Hj) as H.
    unfold key_then_place in H. lia.
Qed.

(** C3 (as amended): the ranker has no failure: on every assignment it
    returns its two tables; on the empty assignment both are empty; and
    no group it builds is empty. *)
Theorem rank_always_returns (labels_list : list label) :
  rank labels_list
  = inr (new_index_old_index label_eq_dec labels_list,
         cluster_to_tokens labels_list)
  /\ rank labels_list <> inl InvalidInput
  /\ rank [] = inr ([], [])
  /\ Forall (fun kv => snd kv <> []) (cluster_to_tokens labels_list).
Proof.
  repeat split; [discriminate | apply groups_nonempty].
Qed.

(** C5: for a non-empty assignment the rank table is a bijection between
    the ranks [0..K-1], [K] the number of distinct labels, and the labels
    present; group sizes do not increase with the rank, so rank [0] holds
    a label of a largest group. *)
Theorem rank_table_bijection (labels_list : list label) :
  labels_list <> [] ->
  let table := new_index_old_index label_eq_dec labels_list in
  let K := List.length (nodup label_eq_dec labels_list) in
  map fst table = seq 0 K
  /\ (forall i, i < K <-> exists c, lookup table i = Some c)
  /\ (forall i j c,
        lookup table i = Some c -> lookup table j = Some c -> i = j)
  /\ (forall c, In c labels_list <-> exists i, lookup table i = Some c)
  /\ (forall i j ci cj,
        i <= j -> lookup table i = Some ci -> lookup table j = Some cj ->
        group_size labels_list cj <= group_size labels_list ci)
  /\ (exists c0,
        lookup table 0 = Some c0
        /\ forall c, In c labels_list ->
             group_size labels_list c <= group_size labels_list c0)
  /\ (forall c,
        group_size labels_list c = count_occ label_eq_dec labels_list c).
Proof.
  intros Hne table K. subst table K.
  rewrite <- ranked_length.
  repeat split.
  - unfold new_index_old_index. fold (ranked labels_list).
    apply map_fst_enumerate.
  - intros Hi. rewrite lookup_rank.
    destruct (nth_error (ranked labels_list) i) as [c|] eqn:E;
      [now exists c|].
    apply nth_error_None in E. lia.
  - intros [c Hc]. rewrite lookup_rank in Hc.
    apply nth_error_Some. congruence.
  - intros i j c Hi Hj. rewrite lookup_rank in Hi, Hj.
    apply (proj1 (NoDup_nth_error _) (ranked_NoDup labels_list)).
    + apply nth_error_Some. congruence.
    + congruence.
  - intros Hc. apply ranked_In, In_nth_error in Hc.
    destruct Hc as [i Hi]. exists i. now rewrite lookup_rank.
  - intros [i Hi]. rewrite lookup_rank in Hi.
    eapply ranked_In, nth_error_In, Hi.
  - intros i j ci cj Hij Hi Hj. rewrite lookup_rank in Hi, Hj.
    eapply ranked_descending; eassumption.
  - destruct (ranked labels_list) as [|c0 r] eqn:E.
    + destruct labels_list as [|x l]; [congruence|].
      assert (Hx : In x (ranked (x :: l))) by (apply ranked_In; now left).
      rewrite E in Hx. destruct Hx.
    + exists c0. rewrite lookup_rank, E. split; [reflexivity|].
      intros c Hc. apply ranked_In, In_nth_error in Hc.
      destruct Hc as [j Hj].
      apply (ranked_descending labels_list 0 j);
        [lia | now rewrite E | assumption].
  - apply group_size_count_occ.
Qed.

(** C7: of two labels with groups of equal size, the one first seen
    earlier in the assignment gets the smaller rank; and the rank table
    is a function of the assignment alone (it does not depend on how
    equality of labels is decided), so running the ranker again gives
    the same table. *)
Theorem tie_break_first_seen (labels_list : list label)
    (a b : label) (ra rb : nat) :
  lookup (new_index_old_index label_eq_dec labels_list) ra = Some a ->
  lookup (new_index_old_index label_eq_dec labels_list) rb = Some b ->
  group_size labels_list a = group_size labels_list b ->
  first_seen a labels_list < first_seen b labels_list ->
  ra < rb
  /\ forall dec : (forall x y : label, {x = y} + {x <> y}),
       new_index_old_index dec labels_list
       = new_index_old_index label_eq_dec labels_list.
Proof.
  intros Ha Hb Hsize Hseen.
  split; [|intros dec; apply new_index_old_index_decider].
  rewrite lookup_rank in Ha, Hb.
  destruct (Nat.lt_trichotomy ra rb) as [Hlt|[Heq|Hgt]]; [assumption| |].
  - subst rb. rewrite Ha in Hb. injection Hb as ->. lia.
  - pose proof (StronglySorted_nth_error _ _ (ranked_sorted labels_list)
                  rb ra b a Hgt Hb Ha) as H.
    unfold key_then_place in H. lia.
Qed.

End Ranking.

(** ** The claims at concrete inputs *)

(** Against C1 as stated: [</] in a token that truncation drops is not
    seen, and the remaining token is rendered. *)
Lemma security_check_skips_dropped_tokens :
  Py.contains "</" (join ["</"; "a"]) = true
  /\ tokens_to_html ["</"; "a"] 1 = ellipsis ++ bordered_cell highlight "a"
  /\ tokens_to_html ["</"; "a"] 1 <> placeholder.
Proof. split; [reflexivity|]. split; [reflexivity | discriminate]. Qed.

(** The check sees [</] split over two tokens of the window. *)
Lemma security_check_on_window_witness :
  Py.contains "</" (join (window ["x"; "a<"; "/b"] 2)) = true
  /\ tokens_to_html ["x"; "a<"; "/b"] 2 = placeholder.
Proof.
  split; [reflexivity|].
  apply (security_check_on_window ["x"; "a<"; "/b"] 2). reflexivity.
Defined.

(** Against C2 as stated: the two glyphs of the token of two newlines
    share one bordered cell. *)
Lemma newline_glyphs_share_one_cell :
  tokens_to_html [LF ++ LF] default_max_len
  = bordered_cell highlight (glyph ++ glyph) ++ "<br><br>"
  /\ tokens_to_html [LF ++ LF] default_max_len
     <> one_cell_per_glyph highlight 2
  /\ tokens_to_html [LF ++ LF] default_max_len
     <> one_cell_per_glyph plain 2.
Proof. split; [reflexivity|]. split; discriminate. Qed.

(** The token CR LF has two characters: one cell, two glyphs, two breaks. *)
Lemma newline_policy_witness :
  window ["a"; CRLF; "b"] default_max_len = ["a"; CRLF; "b"]
  /\ withheld ["a"; CRLF; "b"] default_max_len = false
  /\ all_newline CRLF = true
  /\ tokens_to_html ["a"; CRLF; "b"] default_max_len
     = bordered_cell plain "a"
       ++ (bordered_cell plain (glyph ++ glyph) ++ "<br><br>")
       ++ bordered_cell highlight "b".
Proof.
  do 3 (split; [reflexivity|]).
  exact (newline_policy ["a"; CRLF; "b"] default_max_len
           ["a"] CRLF ["b"] eq_refl eq_refl eq_refl).
Defined.

(** Against C3 as stated: the empty assignment gives two empty tables,
    not an error. *)
Lemma rank_empty_is_no_error :
  rank string_dec [] = inr ([], [])
  /\ rank string_dec [] <> inl InvalidInput.
Proof. split; [reflexivity | discriminate]. Qed.

(** Three tokens with [max_len = 2], and one token with [max_len = 2]. *)
Lemma truncation_policy_witness :
  ((0 < 2)%Z /\ withheld ["a"; "b"; "c"] 2 = false
   /\ (Z.of_nat (List.length ["a"; "b"; "c"]) > 2)%Z
   /\ tokens_to_html ["a"; "b"; "c"] 2
      = "<span>...</span>"
        ++ bordered_cell plain "b" ++ bordered_cell highlight "c")
  /\ ((0 < 2)%Z /\ withheld ["a"] 2 = false
      /\ (Z.of_nat (List.length ["a"]) < 2)%Z
      /\ tokens_to_html ["a"] 2 = bordered_cell highlight "a"
      /\ String.prefix "<span>...</span>" (tokens_to_html ["a"] 2) = false).
Proof.
  split; do 3 (split; [reflexivity|]).
  - exact (proj1 (proj1 (truncation_policy ["a"; "b"; "c"] 2 eq_refl eq_refl)
                    eq_refl)).
  - destruct (proj2 (truncation_policy ["a"] 2 eq_refl eq_refl) eq_refl)
      as (Hcells & _ & Hfront & _).
    split; [exact Hcells | exact Hfront].
Defined.

(** The assignment [0:a, 1:b, 2:a] of the specification. *)
Lemma rank_table_bijection_witness :
  assignment_aba <> []
  /\ cluster_to_tokens string_dec assignment_aba = [("a", [0; 2]); ("b", [1])]
  /\ new_index_old_index string_dec assignment_aba = [(0, "a"); (1, "b")]
  /\ (forall i, i < 2 <->
        exists c, lookup (new_index_old_index string_dec assignment_aba) i
                  = Some c)
  /\ (exists c0,
        lookup (new_index_old_index string_dec assignment_aba) 0 = Some c0
        /\ forall c, In c assignment_aba ->
             group_size string_dec assignment_aba c
             <= group_size string_dec assignment_aba c0).
Proof.
  assert (Hne : assignment_aba <> []) by discriminate.
  destruct (rank_table_bijection string string_dec assignment_aba Hne)
    as (_ & Hdense & _ & _ & _ & Hfirst & _).
  split; [exact Hne|]. do 2 (split; [reflexivity|]).
  split; [exact Hdense | exact Hfirst].
Defined.

(** The tokens [A_B*C] and [$$] of the specification. *)
Lemma escaping_policy_witness :
  window ["A_B*C"; "$$"] default_max_len = ["A_B*C"; "$$"]
  /\ withheld ["A_B*C"; "$$"] default_max_len = false
  /\ all_newline "$$" = false
  /\ tokens_to_html ["A_B*C"; "$$"] default_max_len
     = bordered_cell plain "A\_B\*C" ++ bordered_cell highlight "\$\$".
Proof.
  do 3 (split; [reflexivity|]).
  exact (proj1 (escaping_policy ["A_B*C"; "$$"] default_max_len
                  ["A_B*C"] "$$" [] eq_refl eq_refl eq_refl)).
Defined.

(** [b] and [c] both have two samples; [b] is seen first. *)
Lemma tie_break_first_seen_witness :
  new_index_old_index string_dec assignment_tie
  = [(0, "b"); (1, "c"); (2, "a"); (3, "d")]
  /\ group_size string_dec assignment_tie "b"
     = group_size string_dec assignment_tie "c"
  /\ first_seen string_dec "b" assignment_tie
     < first_seen string_dec "c" assignment_tie
  /\ 0 < 1.
Proof.
  assert (Hseen : first_seen string_dec "b" assignment_tie
                  < first_seen string_dec "c" assignment_tie)
    by (vm_compute; lia).
  do 2 (split; [reflexivity|]). split; [exact Hseen|].
  exact (proj1 (tie_break_first_seen string string_dec assignment_tie
                  "b" "c" 0 1 eq_refl eq_refl eq_refl Hseen)).
Defined.

(** The tokens [hi], [there] of the specification. *)
Lemma highlight_policy_witness :
  window ["hi"; "there"] default_max_len = ["hi"; "there"]
  /\ withheld ["hi"; "there"] default_max_len = false
  /\ tokens_to_html ["hi"; "there"] default_max_len
     = bordered_cell plain "hi" ++ bordered_cell highlight "there"
  /\ bordered_cell plain "there" <> bordered_cell highlight "there".
Proof.
  do 2 (split; [reflexivity|]).
  destruct (highlight_policy ["hi"; "there"] default_max_len
              ["hi"] "there" eq_refl eq_refl)
    as (Hout & _ & Hdiffer & _).
  split; [exact Hout | exact (Hdiffer "there")].
Defined.

(** The empty sequence with the default [max_len]. *)
Lemma empty_sequence_witness :
  (0 <= default_max_len)%Z /\ tokens_to_html [] default_max_len = "".
Proof.
  split; [discriminate|].
  refine (proj1 (empty_sequence default_max_len _)). discriminate.
Defined.

(** An empty token between two others. *)
Lemma empty_token_cell_witness :
  window ["a"; ""; "b"] default_max_len = ["a"; ""; "b"]
  /\ withheld ["a"; ""; "b"] default_max_len = false
  /\ tokens_to_html ["a"; ""; "b"] default_max_len
     = bordered_cell plain "a" ++ (span_open plain ++ "</span>")
       ++ bordered_cell highlight "b".
Proof.
  do 2 (split; [reflexivity|]).
  exact (proj2 (empty_token_cell ["a"; ""; "b"] default_max_len
                  ["a"] ["b"] eq_refl eq_refl)).
Defined.


(** ** More on the renderer *)

(** *** Substring search *)

Lemma prefix_append (p y : string) : String.prefix p (p ++ y) = true.
Proof.
  induction p as [|c p IH]; simpl; [now destruct y|].
  destruct (ascii_dec c c); [assumption | congruence].
Qed.



Lemma contains_append_r (p a b : string) :
  Py.contains p b = true -> Py.contains p (a ++ b) = true.
Proof.
  intros H. induction a as [|c a IH]; [assumption|].
  change (String c a ++ b) with (String c (a ++ b)).
  cbn [Py.contains]. rewrite IH. apply orb_true_r.
Qed.

Lemma contains_middle (p x y : string) :
  Py.contains p (x ++ p ++ y) = true.
Proof.
  apply contains_append_r.
  destruct (p ++ y) eqn:E; cbn [Py.contains]; rewrite <- E, prefix_append;
    reflexivity.
Qed.


(** *** Escaped text *)

Lemma replace_chain_is_escape (token : string) :
  replace_chain token = escape token.
Proof. apply replace_chain_escape. Qed.

Ltac case_special c :=
  unfold escape_char;
  destruct (Ascii.eqb_spec c "$") as [?|?];
  [|destruct (Ascii.eqb_spec c "&") as [?|?];
    [|destruct (Ascii.eqb_spec c "_") as [?|?];
      [|destruct (Ascii.eqb_spec c "*") as [?|?];
        [|destruct (Ascii.eqb_spec c "`") as [?|?]]]]];
  try subst c.

(** Escaped text never starts with a bare [$], [_], [*] or backtick. *)
Lemma escape_head (token : string) (x : ascii) (rest : string) :
  escape token = String x rest ->
  x <> "$"%char /\ x <> "_"%char /\ x <> "*"%char /\ x <> "`"%char.
Proof.
  destruct token as [|c token]; [discriminate|].
  cbn [escape]. case_special c; cbn [String.append]; intros H;
    injection H as <- _; repeat split; try discriminate; assumption.
Qed.



Lemma escape_plain (token : string) :
  (forall c, In c (list_ascii_of_string token) -> ~ In c special) ->
  escape token = token.
Proof.
  induction token as [|c token IH]; intros H; [reflexivity|].
  cbn [escape]. rewrite IH by (intros d Hd; apply H; now right).
  assert (Hc : ~ In c special) by (apply H; now left).
  unfold special in Hc. simpl in Hc.
  case_special c; tauto || reflexivity.
Qed.

Lemma escape_injective (a : string) : forall b,
  escape a = escape b -> a = b.
Proof.
  induction a as [|c a IH]; intros [|d b] H.
  - reflexivity.
  - exfalso. cbn [escape] in H. revert H. case_special d; discriminate.
  - exfalso. cbn [escape] in H. revert H. case_special c; discriminate.
  - cbn [escape] in H. revert H.
    case_special c; case_special d; cbn [String.append]; intros H;
      try discriminate;
      try (injection H as H; f_equal; now apply IH);
      try (injection H as -> H; f_equal; now apply IH);
      try (injection H as _ H; apply escape_head in H; tauto);
      try (injection H as _ H; symmetry in H; apply escape_head in H; tauto);
      try (injection H as E _; congruence).
Qed.


Lemma in_list_line_break (c : ascii) :
  Py.in_list (String c "") newline_tokens = line_break c.
Proof.
  destruct c as [[] [] [] [] [] [] [] []]; reflexivity.
Qed.

Lemma line_break_no_tag (token : string) :
  all_newline token = true -> Py.contains "</" token = false.
Proof.
  unfold all_newline. induction token as [|c token IH]; [reflexivity|].
  cbn [list_ascii_of_string forallb]. rewrite in_list_line_break.
  intros H. apply andb_true_iff in H. destruct H as [Hc Ht].
  cbn [Py.contains String.prefix]. rewrite (IH Ht).
  destruct (ascii_dec "<" c) as [<-|]; [discriminate | reflexivity].
Qed.


(** *** What the renderer returns, case by case *)

Lemma tokens_to_html_final (tokens : list string) (max_len : Z)
    (pre : list string) (final : string) :
  window tokens max_len = (pre ++ [final])%list ->
  withheld tokens max_len = false ->
  tokens_to_html tokens max_len
  = marker tokens max_len
    ++ join (map (token_cell plain) pre) ++ token_cell highlight final.
Proof.
  intros Hw Hshown.
  rewrite (tokens_to_html_at tokens max_len pre final [] Hw Hshown).
  cbn [window_cells join fold_right background_before].
  now rewrite append_nil_r.
Qed.

(** X1: the placeholder is returned exactly when the raw text of the
    rendered window contains [</]; the markup itself is never equal to
    the placeholder. *)
Theorem placeholder_exactly_when_tag_in_window
    (tokens : list string) (max_len : Z) :
  (tokens_to_html tokens max_len = placeholder
   <-> Py.contains "</" (join (Py.slice_from_neg tokens max_len)) = true)
  /\ marker tokens max_len ++ join (window_cells (window tokens max_len))
     <> placeholder.
Proof.
  split; [apply tokens_to_html_placeholder_iff | apply markup_not_placeholder].
Qed.

(** X2: a sequence of at most [max_len] tokens, so also one of exactly
    [max_len] tokens, is rendered whole and without the ellipsis. *)
Theorem no_ellipsis_up_to_max_len (tokens : list string) (max_len : Z) :
  (Z.of_nat (List.length tokens) <= max_len)%Z ->
  withheld tokens max_len = false ->
  tokens_to_html tokens max_len = join (window_cells tokens).
Proof.
  intros Hlen Hshown. rewrite tokens_to_html_eq, Hshown. unfold marker.
  rewrite window_all by lia.
  destruct (Z.gtb_spec (Z.of_nat (List.length tokens)) max_len);
    [lia | reflexivity].
Qed.

(** X3: with [max_len = 0] the slice [tokens[-0:]] is the whole list: a
    non-empty sequence gets the ellipsis and still every token. *)
Theorem zero_max_len_renders_everything (tokens : list string) :
  tokens <> [] ->
  withheld tokens 0 = false ->
  tokens_to_html tokens 0
  = "<span>...</span>" ++ join (window_cells tokens).
Proof.
  intros Hne Hshown. rewrite tokens_to_html_eq, Hshown.
  unfold marker, window, Py.slice_from_neg. cbn [Z.opp Z.ltb Z.compare].
  replace (Z.to_nat _) with 0 by lia. cbn [skipn].
  destruct tokens as [|t tokens]; [congruence | reflexivity].
Qed.

(** X4: with a negative [max_len] the ellipsis is always emitted and the
    slice drops the first [-max_len] tokens instead of keeping the last
    ones. *)
Theorem negative_max_len_drops_front (tokens : list string) (max_len : Z) :
  (max_len < 0)%Z ->
  withheld tokens max_len = false ->
  tokens_to_html tokens max_len
  = "<span>...</span>"
    ++ join (window_cells (skipn (Z.to_nat (- max_len)) tokens)).
Proof.
  intros Hneg Hshown. rewrite tokens_to_html_eq, Hshown. unfold marker.
  destruct (Z.gtb_spec (Z.of_nat (List.length tokens)) max_len); [|lia].
  unfold window, Py.slice_from_neg.
  destruct (Z.ltb_spec (- max_len) 0); [lia|].
  destruct (Z.le_ge_cases (- max_len) (Z.of_nat (List.length tokens)))
    as [Hle|Hge].
  - now rewrite Z.min_l by assumption.
  - rewrite Z.min_r by assumption. rewrite Nat2Z.id.
    rewrite skipn_all. symmetry. rewrite skipn_all2 by lia. reflexivity.
Qed.

(** X5: when tokens are dropped, which tokens they are has no influence:
    the result for [dropped ++ kept], with [dropped] not empty and [kept]
    of length [max_len], is the placeholder when [kept] contains [</], and
    otherwise the ellipsis followed by the rendering of [kept] alone; so
    two sequences that are both longer than [max_len] and have the same
    last [max_len] tokens are rendered alike. *)
Theorem truncation_forgets_dropped_tokens
    (dropped kept : list string) (max_len : Z) :
  (0 < max_len)%Z ->
  Z.of_nat (List.length kept) = max_len ->
  dropped <> [] ->
  tokens_to_html (dropped ++ kept)%list max_len
  = (if Py.contains "</" (join kept) then placeholder
     else "<span>...</span>" ++ tokens_to_html kept max_len)
  /\ forall dropped' : list string,
       dropped' <> [] ->
       tokens_to_html (dropped' ++ kept)%list max_len
       = tokens_to_html (dropped ++ kept)%list max_len.
Proof.
  intros Hpos Hlen Hne.
  assert (Hkept : tokens_to_html kept max_len
                  = if Py.contains "</" (join kept) then placeholder
                    else join (window_cells kept)).
  { rewrite tokens_to_html_eq. unfold withheld, marker.
    rewrite window_all by lia.
    destruct (Z.gtb_spec (Z.of_nat (List.length kept)) max_len);
      [lia | reflexivity]. }
  assert (Hany : forall d : list string, d <> [] ->
            tokens_to_html (d ++ kept)%list max_len
            = if Py.contains "</" (join kept) then placeholder
              else ellipsis ++ join (window_cells kept)).
  { intros d Hd. rewrite tokens_to_html_eq. unfold withheld, marker.
    rewrite window_last by assumption. rewrite length_app.
    replace (List.length d + List.length kept - Z.to_nat max_len)
      with (List.length d) by lia.
    rewrite skipn_app, skipn_all, Nat.sub_diag. cbn [skipn List.app].
    destruct (Z.gtb_spec (Z.of_nat (List.length d + List.length kept))
                         max_len) as [_|Hle]; [reflexivity|].
    destruct d; [congruence | simpl in Hle; lia]. }
  split.
  - rewrite (Hany dropped Hne), Hkept.
    now destruct (Py.contains "</" (join kept)).
  - intros d Hd. now rewrite (Hany d Hd), (Hany dropped Hne).
Qed.

(** X6: [</] split over two neighbouring tokens of the window is found,
    although neither token contains it: the check is made on the joined
    text. *)
Theorem closing_tag_across_tokens (tokens : list string) (max_len : Z)
    (pre : list string) (a b : string) (post : list string) :
  window tokens max_len
  = (pre ++ (a ++ "<")%string :: ("/" ++ b)%string :: post)%list ->
  tokens_to_html tokens max_len = placeholder.
Proof.
  intros Hw. apply tokens_to_html_placeholder_iff.
  unfold withheld. rewrite Hw, join_app, !join_cons.
  replace (join pre ++ (a ++ "<") ++ ("/" ++ b) ++ join post)
    with ((join pre ++ a) ++ "</" ++ (b ++ join post))
    by (rewrite !append_assoc; reflexivity).
  apply contains_middle.
Qed.


(** X8: a token that is not a newline token and has none of the five
    special characters is put in its cell unchanged. *)
Theorem plain_text_token_unchanged (tokens : list string) (max_len : Z)
    (pre : list string) (token : string) (post : list string) :
  window tokens max_len = (pre ++ token :: post)%list ->
  withheld tokens max_len = false ->
  all_newline token = false ->
  (forall c, In c (list_ascii_of_string token) -> ~ In c special) ->
  tokens_to_html tokens max_len
  = marker tokens max_len
    ++ join (map (token_cell plain) pre)
    ++ bordered_cell (background_before post) token
    ++ join (window_cells post).
Proof.
  intros Hw Hshown Hnl Hplain.
  rewrite (tokens_to_html_at tokens max_len pre token post Hw Hshown).
  unfold token_cell at 2. now rewrite Hnl, escape_plain.
Qed.

(** X9: the five replacements lose nothing: two tokens with the same
    escaped text are the same token. *)
Theorem escaping_is_injective (a b : string) :
  replace_chain a = replace_chain b -> a = b.
Proof. rewrite !replace_chain_is_escape. apply escape_injective. Qed.

(** X10: the newline test looks at single characters, so it holds exactly
    for the tokens made of LF, CR, VT and FF only; the two-character
    entry of [newline_tokens] never matches. *)
Theorem newline_test_by_character (token : string) :
  all_newline token = forallb line_break (list_ascii_of_string token).
Proof.
  unfold all_newline.
  induction (list_ascii_of_string token) as [|c l IH]; cbn [forallb];
    [reflexivity | now rewrite in_list_line_break, IH].
Qed.

(** X11: when a sample is rendered as [context + [y]] with the default
    [max_len], the answer [y] is the highlighted cell, the cells before
    it are the last 149 tokens of the context, and the ellipsis is there
    exactly when the context has 150 tokens or more. *)
Theorem answer_is_highlighted (ctx : list string) (y : string) :
  withheld (ctx ++ [y])%list default_max_len = false ->
  tokens_to_html (ctx ++ [y])%list default_max_len
  = (if Nat.leb 150 (List.length ctx) then "<span>...</span>" else "")
    ++ join (map (token_cell plain)
                 (skipn (List.length ctx - 149) ctx))
    ++ token_cell highlight y
  /\ token_cell highlight y <> token_cell plain y.
Proof.
  intros Hshown.
  split; [|intros H; symmetry in H;
           now apply token_cell_backgrounds_differ in H].
  assert (Hw : window (ctx ++ [y])%list default_max_len
               = (skipn (List.length ctx - 149) ctx ++ [y])%list).
  { rewrite window_last by reflexivity. rewrite length_app. cbn [List.length].
    replace (List.length ctx + 1 - Z.to_nat default_max_len)
      with (List.length ctx - 149)
      by (unfold default_max_len; lia).
    rewrite skipn_app.
    replace (List.length ctx - 149 - List.length ctx) with 0 by lia.
    reflexivity. }
  rewrite (tokens_to_html_final _ _ _ _ Hw Hshown).
  unfold marker. rewrite length_app. cbn [List.length].
  destruct (Nat.leb_spec 150 (List.length ctx));
    destruct (Z.gtb_spec (Z.of_nat (List.length ctx + 1)) default_max_len);
    unfold default_max_len in *; try lia; reflexivity.
Qed.

(** ** More on the grouping and the rank table *)

Lemma in_combine_seq {A : Type} (l : list A) (x : A) : forall k i,
  In (i, x) (combine (seq k (List.length l)) l)
  <-> k <= i /\ nth_error l (i - k) = Some x.
Proof.
  induction l as [|y l IH]; intros k i; simpl.
  - split; [tauto|]. intros [_ H]. now destruct (i - k).
  - rewrite IH. split.
    + intros [E|[Hle Hn]].
      * injection E as <- <-. rewrite Nat.sub_diag. now split.
      * split; [lia|]. replace (i - k) with (S (i - S k)) by lia. exact Hn.
    + intros [Hle Hn]. destruct (i - k) as [|m] eqn:E.
      * left. injection Hn as <-. f_equal. lia.
      * right. split; [lia|]. replace (i - S k) with m by lia. exact Hn.
Qed.

Lemma in_enumerate {A : Type} (l : list A) (i : nat) (x : A) :
  In (i, x) (Py.enumerate l) <-> nth_error l i = Some x.
Proof.
  unfold Py.enumerate. rewrite in_combine_seq, Nat.sub_0_r.
  split; [tauto | intros H; split; [lia | exact H]].
Qed.

Lemma map_snd_combine_seq {A : Type} (l : list A) : forall k,
  map snd (combine (seq k (List.length l)) l) = l.
Proof.
  induction l as [|y l IH]; intros k; simpl; [reflexivity | now rewrite IH].
Qed.

Lemma list_sum_permutation (l l' : list nat) :
  Permutation l l' -> list_sum l = list_sum l'.
Proof. induction 1; simpl; lia. Qed.

Lemma sorted_reverse_sorted {A : Type} (key : A -> nat) (l : list A) :
  StronglySorted (fun a b => key b <= key a) l ->
  Py.sorted_reverse key l = l.
Proof.
  induction 1 as [|x l Hl IH Hx]; simpl; [reflexivity|].
  rewrite IH. destruct l as [|y l]; [reflexivity|]. simpl.
  inversion_clear Hx as [|? ? Hxy _].
  destruct (Nat.ltb_spec (key x) (key y)); [lia | reflexivity].
Qed.

Section MoreGrouping.

Variable label : Type.
Variable label_eq_dec : forall a b : label, {a = b} + {a <> b}.

Local Abbreviation cluster_to_tokens := (cluster_to_tokens label_eq_dec).
Local Abbreviation getitem := (getitem label_eq_dec).
Local Abbreviation first_seen := (first_seen label_eq_dec).
Local Abbreviation group_size := (group_size label_eq_dec).

Lemma in_group_bound (labels_list : list label) (i : nat) (c : label) :
  In i (getitem (cluster_to_tokens labels_list) c) ->
  i < List.length labels_list.
Proof.
  rewrite getitem_positions. unfold positions. rewrite in_map_iff.
  intros [[j x] [E H]]. simpl in E. subst j.
  apply filter_In in H. destruct H as [H _].
  apply in_enumerate in H. apply nth_error_Some. congruence.
Qed.

(** X12: the groups partition the samples: the index [i] is in the group
    of the label [c] exactly when sample [i] carries [c]; so every sample
    is in one group and in no other. *)
Theorem groups_partition_samples (labels_list : list label)
    (i : nat) (c : label) :
  In i (getitem (cluster_to_tokens labels_list) c)
  <-> nth_error labels_list i = Some c.
Proof.
  rewrite getitem_positions. unfold positions.
  rewrite in_map_iff. split.
  - intros [[j x] [E H]]. simpl in E. subst j.
    apply filter_In in H. destruct H as [H Hx]. simpl in Hx.
    destruct (label_eq_dec x c); [subst x | discriminate].
    now apply in_enumerate.
  - intros H. exists (i, c). split; [reflexivity|].
    apply filter_In. split; [now apply in_enumerate|].
    simpl. destruct (label_eq_dec c c); [reflexivity | congruence].
Qed.

Lemma group_indices_bound (l : list label) (c : label) :
  Forall (fun i => i < List.length l) (getitem (cluster_to_tokens l) c).
Proof.
  rewrite Forall_forall. intros i Hi. now apply in_group_bound in Hi.
Qed.

(** X13: every group lists its sample indices in strictly increasing
    order, so without repetition. *)
Theorem group_indices_increasing (labels_list : list label) (c : label) :
  StronglySorted lt (getitem (cluster_to_tokens labels_list) c)
  /\ NoDup (getitem (cluster_to_tokens labels_list) c).
Proof.
  assert (Hs : StronglySorted lt (getitem (cluster_to_tokens labels_list) c)).
  { induction labels_list as [|x l IH] using rev_ind; [constructor|].
    rewrite cluster_to_tokens_snoc, getitem_append_at.
    destruct (label_eq_dec c x) as [->|E]; [|assumption].
    apply StronglySorted_snoc; [assumption | apply group_indices_bound]. }
  split; [assumption|].
  induction Hs as [|i g Hg IH Hi]; constructor; [|assumption].
  rewrite Forall_forall in Hi. intros Hin. apply Hi in Hin. lia.
Qed.

Lemma sum_count_occ_cons (x : label) (l ks : list label) :
  list_sum (map (count_occ label_eq_dec (x :: l)) ks)
  = list_sum (map (count_occ label_eq_dec l) ks)
    + count_occ label_eq_dec ks x.
Proof.
  induction ks as [|k ks IH]; [reflexivity|].
  change (count_occ label_eq_dec (x :: l) k
          + list_sum (map (count_occ label_eq_dec (x :: l)) ks)
          = count_occ label_eq_dec l k
            + list_sum (map (count_occ label_eq_dec l) ks)
            + count_occ label_eq_dec (k :: ks) x).
  rewrite IH. cbn [count_occ].
  destruct (label_eq_dec x k) as [->|E].
  - destruct (label_eq_dec k k); [lia | congruence].
  - destruct (label_eq_dec k x); [congruence | lia].
Qed.

Lemma sum_count_occ (l : list label) : forall ks,
  NoDup ks -> (forall c, In c l -> In c ks) ->
  list_sum (map (count_occ label_eq_dec l) ks) = List.length l.
Proof.
  induction l as [|x l IH]; intros ks Hnd Hin.
  - induction ks as [|k ks IHk]; [reflexivity|]. simpl.
    apply IHk; [now inversion Hnd | intros c []].
  - rewrite sum_count_occ_cons, IH; trivial.
    + assert (Hx : In x ks) by (apply Hin; now left).
      apply (count_occ_In label_eq_dec) in Hx.
      pose proof (proj1 (NoDup_count_occ label_eq_dec ks) Hnd x). simpl. lia.
    + intros c Hc. apply Hin. now right.
Qed.

(** X14: the sizes of the groups in the rank table add up to the number
    of samples. *)
Theorem ranked_sizes_add_up (labels_list : list label) :
  list_sum (map (fun entry => group_size labels_list (snd entry))
                (new_index_old_index label_eq_dec labels_list))
  = List.length labels_list.
Proof.
  rewrite <- (map_map snd (group_size labels_list)).
  unfold new_index_old_index, Py.enumerate. rewrite map_snd_combine_seq.
  fold (group_size labels_list).
  rewrite <- (list_sum_permutation _ _
                (Permutation_map (group_size labels_list)
                   (sorted_reverse_perm (group_size labels_list)
                      (keys (cluster_to_tokens labels_list))))).
  rewrite (map_ext _ (count_occ label_eq_dec labels_list))
    by (intros c; apply group_size_count_occ).
  destruct (keys_cluster_to_tokens label label_eq_dec labels_list)
    as [Hnd Hin].
  apply sum_count_occ; [assumption | intros c; apply Hin].
Qed.

(** X15: the grouping step lists every label present exactly once, in
    the order in which the labels are first seen in the assignment. *)
Theorem labels_in_first_seen_order (labels_list : list label) :
  NoDup (keys (cluster_to_tokens labels_list))
  /\ (forall c, In c (keys (cluster_to_tokens labels_list))
                <-> In c labels_list)
  /\ StronglySorted
       (fun a b => first_seen a labels_list < first_seen b labels_list)
       (keys (cluster_to_tokens labels_list)).
Proof.
  destruct (keys_cluster_to_tokens label label_eq_dec labels_list)
    as [Hnd Hin].
  repeat split; try assumption; try apply Hin.
  apply keys_first_seen_order.
Qed.

(** X16: when the group sizes do not increase along the first-seen order
    of the labels (so also when all groups have one size), the ranks
    follow the first-seen order. *)
Theorem ranks_follow_first_seen_order (labels_list : list label) :
  StronglySorted
    (fun a b => group_size labels_list b <= group_size labels_list a)
    (keys (cluster_to_tokens labels_list)) ->
  new_index_old_index label_eq_dec labels_list
  = Py.enumerate (keys (cluster_to_tokens labels_list)).
Proof.
  intros Hs. unfold new_index_old_index.
  fold (group_size labels_list). now rewrite sorted_reverse_sorted.
Qed.

End MoreGrouping.

(** ** Navigation between clusters *)

Lemma prev_cluster_range (n idx : Z) :
  (0 <= idx < n)%Z -> (0 <= prev_cluster idx < n)%Z.
Proof.
  intros H. unfold prev_cluster. destruct (Z.gtb_spec idx 0); lia.
Qed.

Lemma next_cluster_range (n idx : Z) :
  (0 <= idx < n)%Z -> (0 <= next_cluster n idx < n)%Z.
Proof.
  intros H. unfold next_cluster. destruct (Z.ltb_spec idx (n - 1)); lia.
Qed.

Lemma presses_snoc (n idx : Z) (keys : list arrow) (key : arrow) :
  presses n idx (keys ++ [key]) = press n (presses n idx keys) key.
Proof. unfold presses. now rewrite fold_left_app. Qed.

Lemma initial_index_in_range_aux (n_clusters : Z) :
  (1 <= n_clusters)%Z ->
  (0 <= initial_index n_clusters < n_clusters)%Z.
Proof.
  intros Hn. unfold initial_index.
  pose proof (Z.div_mod n_clusters 8 ltac:(lia)).
  pose proof (Z.mod_pos_bound n_clusters 8 ltac:(lia)). lia.
Qed.

Lemma presses_stay_in_range_aux (n_clusters idx : Z) (keys : list arrow) :
  (0 <= idx < n_clusters)%Z ->
  (0 <= presses n_clusters idx keys < n_clusters)%Z.
Proof.
  intros Hidx. induction keys as [|key keys IH] using rev_ind; [exact Hidx|].
  rewrite presses_snoc. destruct key; cbn [press].
  - now apply prev_cluster_range.
  - now apply next_cluster_range.
Qed.

(** X17: the index a new session starts with, [n_clusters // 8], is one
    of the offered indices [0 .. n_clusters - 1] whenever there is at
    least one cluster. *)
Theorem initial_index_in_range (n_clusters : Z) :
  (1 <= n_clusters)%Z ->
  (0 <= initial_index n_clusters < n_clusters)%Z.
Proof.
  intros Hn. unfold initial_index. split.
  - apply Z.div_pos; lia.
  - apply Z.div_lt_upper_bound; lia.
Qed.

(** X18: no sequence of key presses takes the index out of the range
    [0 .. n_clusters - 1]. *)
Theorem presses_stay_in_range (n_clusters idx : Z) (keys : list arrow) :
  (0 <= idx < n_clusters)%Z ->
  (0 <= presses n_clusters idx keys < n_clusters)%Z.
Proof.
  unfold presses. revert idx.
  induction keys as [|key keys IH]; intros idx Hidx; [exact Hidx|].
  cbn [fold_left]. apply IH. destruct key; cbn [press].
  - now apply prev_cluster_range.
  - now apply next_cluster_range.
Qed.

(** X19: inside the range the two callbacks undo each other, and at the
    two ends they leave the index where it is. *)
Theorem prev_next_round_trip (n_clusters idx : Z) :
  (0 <= idx < n_clusters)%Z ->
  ((idx < n_clusters - 1)%Z ->
     prev_cluster (next_cluster n_clusters idx) = idx)
  /\ ((0 < idx)%Z -> next_cluster n_clusters (prev_cluster idx) = idx)
  /\ (idx = 0%Z -> prev_cluster idx = idx)
  /\ (idx = (n_clusters - 1)%Z -> next_cluster n_clusters idx = idx).
Proof.
  intros H. unfold prev_cluster, next_cluster. repeat split; intros H'.
  - destruct (Z.ltb_spec idx (n_clusters - 1)); [|lia].
    destruct (Z.gtb_spec (idx + 1) 0); lia.
  - destruct (Z.gtb_spec idx 0); [|lia].
    destruct (Z.ltb_spec (idx - 1) (n_clusters - 1)); lia.
  - destruct (Z.gtb_spec idx 0); lia.
  - destruct (Z.ltb_spec idx (n_clusters - 1)); lia.
Qed.

Lemma repeated_presses_aux (n_clusters idx : Z) (k : nat) :
  (0 <= idx < n_clusters)%Z ->
  presses n_clusters idx (repeat ArrowRight k)
  = Z.min (idx + Z.of_nat k) (n_clusters - 1)
  /\ presses n_clusters idx (repeat ArrowLeft k)
     = Z.max (idx - Z.of_nat k) 0.
Proof.
  intros H. split.
  - induction k as [|k IH]; [cbn; lia|].
    replace (repeat ArrowRight (S k)) with (repeat ArrowRight k ++ [ArrowRight])%list
      by (rewrite <- repeat_cons; reflexivity).
    rewrite presses_snoc, IH. cbn [press]. unfold next_cluster.
    destruct (Z.ltb_spec (Z.min (idx + Z.of_nat k) (n_clusters - 1))
                         (n_clusters - 1)); lia.
  - induction k as [|k IH]; [cbn; lia|].
    replace (repeat ArrowLeft (S k)) with (repeat ArrowLeft k ++ [ArrowLeft])%list
      by (rewrite <- repeat_cons; reflexivity).
    rewrite presses_snoc, IH. cbn [press]. unfold prev_cluster.
    destruct (Z.gtb_spec (Z.max (idx - Z.of_nat k) 0) 0); lia.
Qed.

(** X20: pressing the right arrow [k] times moves the index [k] places
    up but not beyond [n_clusters - 1]; pressing the left arrow [k] times
    moves it [k] places down but not below [0]. *)
Theorem repeated_presses (n_clusters idx : Z) (k : nat) :
  (0 <= idx < n_clusters)%Z ->
  presses n_clusters idx (repeat ArrowRight k)
  = Z.min (idx + Z.of_nat k) (n_clusters - 1)
  /\ presses n_clusters idx (repeat ArrowLeft k)
     = Z.max (idx - Z.of_nat k) 0.
Proof. apply repeated_presses_aux. Qed.

(** X21: every index of the range can be reached from every other one
    with the arrow keys. *)
Theorem every_cluster_reachable (n_clusters idx target : Z) :
  (0 <= idx < n_clusters)%Z -> (0 <= target < n_clusters)%Z ->
  exists keys, presses n_clusters idx keys = target.
Proof.
  intros Hidx Htarget. destruct (Z.le_ge_cases idx target) as [Hle|Hge].
  - exists (repeat ArrowRight (Z.to_nat (target - idx))).
    rewrite (proj1 (repeated_presses_aux n_clusters idx _ Hidx)). lia.
  - exists (repeat ArrowLeft (Z.to_nat (idx - target))).
    rewrite (proj2 (repeated_presses_aux n_clusters idx _ Hidx)). lia.
Qed.

(** ** The selection of a clustering *)

Lemma in_list_In (x : string) (l : list string) :
  Py.in_list x l = true <-> In x l.
Proof.
  unfold Py.in_list. rewrite existsb_exists. split.
  - intros [y [Hy E]]. apply String.eqb_eq in E. now subst.
  - intros H. exists x. split; [assumption | apply String.eqb_refl].
Qed.

Lemma index_In (x : string) (l : list string) :
  In x l ->
  exists i, Py.index x l = Some i /\ nth_error l i = Some x
            /\ forall j, j < i -> nth_error l j <> Some x.
Proof.
  induction l as [|y l IH]; [intros []|]. intros Hin. cbn [Py.index].
  destruct (String.eqb_spec y x) as [->|Hne].
  - exists 0. repeat split. intros j Hj. lia.
  - destruct Hin as [E|Hin]; [congruence|].
    destruct (IH Hin) as (i & Hi & Hn & Hfirst). exists (S i).
    rewrite Hi. repeat split; [assumption|].
    intros [|j] Hj; simpl; [congruence | apply Hfirst; lia].
Qed.

(** X22: the default selection cannot fail with [ValueError]: for a
    non-empty list of cluster counts the default is an element of the
    list, ["400"] when that is offered and the first element otherwise,
    and the index handed to the select box is the place of its first
    occurrence; only the empty list fails, with [IndexError]. *)
Theorem default_selection_is_offered (cluster_sizes : list string) :
  cluster_sizes <> [] ->
  exists default i,
    default_n_clusters cluster_sizes = inr default
    /\ default_index cluster_sizes = inr i
    /\ nth_error cluster_sizes i = Some default
    /\ (forall j, j < i -> nth_error cluster_sizes j <> Some default)
    /\ (In "400" cluster_sizes -> default = "400")
    /\ (~ In "400" cluster_sizes -> i = 0)
    /\ default_index [] = inl IndexError.
Proof.
  intros Hne. unfold default_index, default_n_clusters.
  destruct (Py.in_list "400" cluster_sizes) eqn:E.
  - apply in_list_In in E. destruct (index_In _ _ E) as (i & Hi & Hn & Hf).
    exists "400", i. rewrite Hi. repeat split; trivial. tauto.
  - destruct cluster_sizes as [|first rest]; [congruence|].
    exists first, 0. cbn [Py.index]. rewrite String.eqb_refl.
    repeat split; trivial.
    + intros j Hj. lia.
    + intros H. apply in_list_In in H. congruence.
Qed.

(** ** The display of a cluster *)

Lemma samples_getitem_key (samples : samples_doc) (k : string) :
  In k (idx_to_token_idx samples) ->
  exists s, samples_getitem samples k = Some s.
Proof.
  induction samples as [|[k' v] samples IH]; [intros []|].
  intros Hin. cbn [samples_getitem].
  destruct (String.eqb_spec k k') as [->|Hne]; [now exists v|].
  destruct Hin as [E|Hin]; [simpl in E; congruence | now apply IH].
Qed.

Lemma samples_getitem_nth (samples : samples_doc) : forall i k s,
  NoDup (idx_to_token_idx samples) ->
  nth_error samples i = Some (k, s) ->
  samples_getitem samples k = Some s.
Proof.
  induction samples as [|[k' v] samples IH]; intros i k s Hnd Hn.
  - now destruct i.
  - cbn [samples_getitem]. destruct i as [|i]; simpl in Hn.
    + injection Hn as -> ->. now rewrite String.eqb_refl.
    + inversion_clear Hnd as [|? ? Hk' Hnd'].
      destruct (String.eqb_spec k k') as [->|Hne].
      * exfalso. apply Hk'. apply nth_error_In in Hn.
        now apply (in_map fst) in Hn.
      * now apply (IH i).
Qed.

Lemma show_samples_no_exception (samples : samples_doc) (indices : list nat) :
  Forall (fun i => i < List.length samples) indices ->
  snd (show_samples samples indices) = None.
Proof.
  induction 1 as [|i indices Hi _ IH]; [reflexivity|].
  cbn [show_samples].
  destruct (nth_error (idx_to_token_idx samples) i) as [k|] eqn:Ek.
  - destruct (samples_getitem_key samples k (nth_error_In _ _ Ek)) as [s Hs].
    rewrite Hs. destruct (show_samples samples indices). exact IH.
  - apply nth_error_None in Ek. unfold idx_to_token_idx in Ek.
    rewrite length_map in Ek. lia.
Qed.

Lemma show_samples_never_key_error (samples : samples_doc)
    (indices : list nat) :
  snd (show_samples samples indices) <> Some KeyError.
Proof.
  induction indices as [|i indices IH]; [discriminate|].
  cbn [show_samples].
  destruct (nth_error (idx_to_token_idx samples) i) as [k|] eqn:Ek;
    [|discriminate].
  destruct (samples_getitem_key samples k (nth_error_In _ _ Ek)) as [s Hs].
  rewrite Hs. destruct (show_samples samples indices). exact IH.
Qed.

Lemma show_samples_step (samples : samples_doc) (i : nat)
    (indices : list nat) :
  NoDup (idx_to_token_idx samples) ->
  i < List.length samples ->
  show_samples samples (i :: indices)
  = ((sample_writes samples i ++ fst (show_samples samples indices))%list,
     snd (show_samples samples indices)).
Proof.
  intros Hnd Hi. cbn [show_samples]. unfold sample_writes.
  destruct (nth_error samples i) as [[k s]|] eqn:En.
  - unfold idx_to_token_idx. rewrite nth_error_map, En. cbn [option_map fst].
    rewrite (samples_getitem_nth samples i k s Hnd En).
    now destruct (show_samples samples indices).
  - apply nth_error_None in En. lia.
Qed.

Lemma show_samples_until (samples : samples_doc) (before : list nat) :
  forall rest,
  NoDup (idx_to_token_idx samples) ->
  Forall (fun i => i < List.length samples) before ->
  show_samples samples (before ++ rest)
  = ((flat_map (sample_writes samples) before
      ++ fst (show_samples samples rest))%list,
     snd (show_samples samples rest)).
Proof.
  intros rest Hnd. induction 1 as [|i before Hi _ IH].
  - cbn [List.app flat_map]. now destruct (show_samples samples rest).
  - cbn [List.app flat_map]. rewrite show_samples_step, IH by assumption.
    cbn [fst snd]. now rewrite <- app_assoc.
Qed.

Lemma sample_writes_length (samples : samples_doc) (i : nat) :
  i < List.length samples -> List.length (sample_writes samples i) = 2.
Proof.
  intros Hi. unfold sample_writes.
  destruct (nth_error samples i) as [[k s]|] eqn:En; [reflexivity|].
  apply nth_error_None in En. lia.
Qed.

Lemma flat_map_sample_writes_length (samples : samples_doc)
    (indices : list nat) :
  Forall (fun i => i < List.length samples) indices ->
  List.length (flat_map (sample_writes samples) indices)
  = 2 * List.length indices.
Proof.
  induction 1 as [|i indices Hi _ IH]; [reflexivity|].
  cbn [flat_map]. rewrite length_app, sample_writes_length, IH by assumption.
  simpl. lia.
Qed.

Section Display.

Variable label : Type.
Variable label_eq_dec : forall a b : label, {a = b} + {a <> b}.

Local Abbreviation cluster_to_tokens := (cluster_to_tokens label_eq_dec).
Local Abbreviation getitem := (getitem label_eq_dec).
Local Abbreviation group_size := (group_size label_eq_dec).
Local Abbreviation table := (new_index_old_index label_eq_dec).
Local Abbreviation display := (display label_eq_dec).

(** The number of distinct labels of an assignment. *)
Local Abbreviation distinct l := (List.length (nodup label_eq_dec l)).

Lemma lookup_int_some (l : list label) (idx : Z) :
  (0 <= idx < Z.of_nat (distinct l))%Z ->
  exists c, lookup_int (table l) idx = Some c.
Proof.
  intros H. unfold lookup_int. destruct (Z.ltb_spec idx 0); [lia|].
  rewrite lookup_rank.
  destruct (nth_error (ranked_labels label_eq_dec l) (Z.to_nat idx))
    as [c|] eqn:E; [now exists c|].
  apply nth_error_None in E. rewrite ranked_length in E. lia.
Qed.

Lemma lookup_int_none (l : list label) (idx : Z) :
  (idx < 0 \/ Z.of_nat (distinct l) <= idx)%Z ->
  lookup_int (table l) idx = None.
Proof.
  intros H. unfold lookup_int. destruct (Z.ltb_spec idx 0); [reflexivity|].
  rewrite lookup_rank. apply nth_error_None. rewrite ranked_length. lia.
Qed.

Lemma display_with_cluster (l : list label) (samples : samples_doc)
    (idx : Z) (c : label) :
  lookup_int (table l) idx = Some c ->
  display l samples idx
  = (Write ("## Cluster " ++ Py.str_int idx)
       :: fst (show_samples samples (getitem (cluster_to_tokens l) c)),
     snd (show_samples samples (getitem (cluster_to_tokens l) c))).
Proof.
  intros H. unfold display. rewrite H.
  now destruct (show_samples samples (getitem (cluster_to_tokens l) c)).
Qed.

(** X23: with a context document that has a sample for every index of
    the assignment, displaying a rank that is in the table ends without an
    exception and writes the heading followed, for every sample of the
    cluster in increasing index order, by the separator and the rendering
    of [context + [answer]] of that sample. *)
Theorem display_shows_every_sample (labels_list : list label)
    (samples : samples_doc) (current_idx : Z) (c : label) :
  NoDup (idx_to_token_idx samples) ->
  List.length labels_list <= List.length samples ->
  lookup_int (table labels_list) current_idx = Some c ->
  display labels_list samples current_idx
  = (Write ("## Cluster " ++ Py.str_int current_idx)
       :: flat_map (sample_writes samples)
                   (getitem (cluster_to_tokens labels_list) c),
     None)
  /\ List.length (fst (display labels_list samples current_idx))
     = 1 + 2 * group_size labels_list c.
Proof.
  intros Hnd Hlen Hc.
  assert (Hb : Forall (fun i => i < List.length samples)
                      (getitem (cluster_to_tokens labels_list) c)).
  { eapply Forall_impl; [|apply group_indices_bound].
    cbv beta. intros i Hi. lia. }
  rewrite (display_with_cluster _ _ _ _ Hc).
  pose proof (show_samples_until samples _ [] Hnd Hb) as E.
  rewrite app_nil_r in E. rewrite E. cbn [show_samples fst snd].
  rewrite app_nil_r. split; [reflexivity|].
  cbn [List.length]. now rewrite flat_map_sample_writes_length.
Qed.

(** X24: the display ends with [KeyError] exactly when the current index
    is negative or not below the number of distinct labels of the
    assignment, and then nothing has been written. *)
Theorem display_key_error (labels_list : list label)
    (samples : samples_doc) (current_idx : Z) :
  (snd (display labels_list samples current_idx) = Some KeyError
   <-> (current_idx < 0
        \/ Z.of_nat (distinct labels_list) <= current_idx)%Z)
  /\ (snd (display labels_list samples current_idx) = Some KeyError ->
      display labels_list samples current_idx = ([], Some KeyError)).
Proof.
  assert (Hout : (current_idx < 0
                  \/ Z.of_nat (distinct labels_list) <= current_idx)%Z ->
                 display labels_list samples current_idx
                 = ([], Some KeyError)).
  { intros H. unfold display. now rewrite lookup_int_none. }
  assert (Hin : snd (display labels_list samples current_idx) = Some KeyError
                -> (current_idx < 0
                    \/ Z.of_nat (distinct labels_list) <= current_idx)%Z).
  { intros H.
    destruct (Z.ltb_spec current_idx 0) as [|Hpos]; [now left|].
    destruct (Z.leb_spec (Z.of_nat (distinct labels_list)) current_idx)
      as [|Hlt]; [now right|].
    exfalso.
    destruct (lookup_int_some labels_list current_idx ltac:(lia)) as [c Hc].
    rewrite (display_with_cluster _ _ _ _ Hc) in H. cbn [snd] in H.
    now apply show_samples_never_key_error in H. }
  split; [split|].
  - exact Hin.
  - intros H. now rewrite (Hout H).
  - intros H. exact (Hout (Hin H)).
Qed.

(** X25: when the labels use exactly [n_clusters] distinct values and the
    context document has a sample for every index, the script cannot end
    with an exception, whatever keys were pressed since the session
    started. *)
Theorem no_exception_after_any_presses (labels_list : list label)
    (samples : samples_doc) (n_clusters : Z) (keys : list arrow) :
  (1 <= n_clusters)%Z ->
  Z.of_nat (distinct labels_list) = n_clusters ->
  List.length labels_list <= List.length samples ->
  snd (display labels_list samples
               (presses n_clusters (initial_index n_clusters) keys))
  = None.
Proof.
  intros Hn HK Hlen.
  pose proof (presses_stay_in_range_aux n_clusters
                (initial_index n_clusters) keys
                (initial_index_in_range_aux n_clusters Hn)) as Hr.
  destruct (lookup_int_some labels_list _ ltac:(rewrite HK; exact Hr))
    as [c Hc].
  rewrite (display_with_cluster _ _ _ _ Hc). cbn [snd].
  apply show_samples_no_exception.
  eapply Forall_impl; [|apply group_indices_bound].
  cbv beta. intros i Hi. lia.
Qed.

(** X26: when the context document is too short for a sample of the
    chosen cluster, the display ends with [IndexError] at the first such
    sample, after the heading and the samples before it have been
    written. *)
Theorem display_index_error (labels_list : list label)
    (samples : samples_doc) (current_idx : Z) (c : label)
    (before : list nat) (i : nat) (after : list nat) :
  NoDup (idx_to_token_idx samples) ->
  lookup_int (table labels_list) current_idx = Some c ->
  getitem (cluster_to_tokens labels_list) c = (before ++ i :: after)%list ->
  Forall (fun j => j < List.length samples) before ->
  List.length samples <= i ->
  display labels_list samples current_idx
  = (Write ("## Cluster " ++ Py.str_int current_idx)
       :: flat_map (sample_writes samples) before,
     Some IndexError).
Proof.
  intros Hnd Hc Hg Hb Hi.
  rewrite (display_with_cluster _ _ _ _ Hc), Hg.
  rewrite (show_samples_until samples before (i :: after) Hnd Hb).
  cbn [show_samples].
  replace (nth_error (idx_to_token_idx samples) i) with (@None string).
  - cbn [fst snd]. now rewrite app_nil_r.
  - symmetry. apply nth_error_None. unfold idx_to_token_idx.
    now rewrite length_map.
Qed.

End Display.

(** ** The further properties at concrete inputs *)

(** Two tokens with [max_len = 2]. *)
Lemma no_ellipsis_up_to_max_len_witness :
  (Z.of_nat (List.length ["a"; "b"]) <= 2)%Z
  /\ withheld ["a"; "b"] 2 = false
  /\ tokens_to_html ["a"; "b"] 2
     = bordered_cell plain "a" ++ bordered_cell highlight "b".
Proof.
  split; [simpl; lia|]. split; [reflexivity|].
  exact (no_ellipsis_up_to_max_len ["a"; "b"] 2 ltac:(simpl; lia) eq_refl).
Defined.

Lemma zero_max_len_renders_everything_witness :
  ["a"; "b"] <> []
  /\ withheld ["a"; "b"] 0 = false
  /\ tokens_to_html ["a"; "b"] 0
     = "<span>...</span>"
       ++ bordered_cell plain "a" ++ bordered_cell highlight "b".
Proof.
  split; [discriminate|]. split; [reflexivity|].
  exact (zero_max_len_renders_everything ["a"; "b"]
           ltac:(discriminate) eq_refl).
Defined.

Lemma negative_max_len_drops_front_witness :
  (-1 < 0)%Z
  /\ withheld ["a"; "b"; "c"] (-1) = false
  /\ tokens_to_html ["a"; "b"; "c"] (-1)
     = "<span>...</span>"
       ++ bordered_cell plain "b" ++ bordered_cell highlight "c".
Proof.
  split; [lia|]. split; [reflexivity|].
  exact (negative_max_len_drops_front ["a"; "b"; "c"] (-1)
           ltac:(lia) eq_refl).
Defined.

Lemma truncation_forgets_dropped_tokens_witness :
  (0 < 2)%Z /\ Z.of_nat (List.length ["a"; "b"]) = 2%Z /\ ["</"] <> []
  /\ tokens_to_html ["</"; "a"; "b"] 2
     = "<span>...</span>" ++ tokens_to_html ["a"; "b"] 2.
Proof.
  split; [lia|]. split; [reflexivity|]. split; [discriminate|].
  exact (proj1 (truncation_forgets_dropped_tokens ["</"] ["a"; "b"] 2
                  ltac:(lia) eq_refl ltac:(discriminate))).
Defined.

Lemma closing_tag_across_tokens_witness :
  window ["x<"; "/y"] default_max_len = ["x<"; "/y"]
  /\ Py.contains "</" "x<" = false /\ Py.contains "</" "/y" = false
  /\ tokens_to_html ["x<"; "/y"] default_max_len = placeholder.
Proof.
  do 3 (split; [reflexivity|]).
  exact (closing_tag_across_tokens ["x<"; "/y"] default_max_len
           [] "x" "y" [] eq_refl).
Defined.


Lemma plain_text_token_unchanged_witness :
  window ["hi"; "there"] default_max_len = ["hi"; "there"]
  /\ withheld ["hi"; "there"] default_max_len = false
  /\ all_newline "hi" = false
  /\ (forall c, In c (list_ascii_of_string "hi") -> ~ In c special)
  /\ tokens_to_html ["hi"; "there"] default_max_len
     = bordered_cell plain "hi" ++ token_cell highlight "there".
Proof.
  assert (Hplain : forall c, In c (list_ascii_of_string "hi")
                             -> ~ In c special).
  { intros c Hc Hs. simpl in Hc, Hs.
    destruct Hc as [<-|[<-|[]]];
      repeat (destruct Hs as [Hs|Hs]; [discriminate|]); exact Hs. }
  do 3 (split; [reflexivity|]). split; [exact Hplain|].
  exact (plain_text_token_unchanged ["hi"; "there"] default_max_len
           [] "hi" ["there"] eq_refl eq_refl eq_refl Hplain).
Defined.

Lemma escaping_is_injective_witness :
  replace_chain "a_b" = replace_chain "a_b" /\ "a_b" = "a_b".
Proof.
  split; [reflexivity|].
  exact (escaping_is_injective "a_b" "a_b" eq_refl).
Defined.

Lemma answer_is_highlighted_witness :
  withheld ["the"; "cat"] default_max_len = false
  /\ tokens_to_html ["the"; "cat"] default_max_len
     = bordered_cell plain "the" ++ bordered_cell highlight "cat".
Proof.
  split; [reflexivity|].
  exact (proj1 (answer_is_highlighted ["the"] "cat" eq_refl)).
Defined.

Lemma ranks_follow_first_seen_order_witness :
  StronglySorted
    (fun a b => group_size string_dec ["a"; "a"; "b"] b
                <= group_size string_dec ["a"; "a"; "b"] a)
    (keys (cluster_to_tokens string_dec ["a"; "a"; "b"]))
  /\ new_index_old_index string_dec ["a"; "a"; "b"] = [(0, "a"); (1, "b")].
Proof.
  assert (Hs : StronglySorted
                 (fun a b => group_size string_dec ["a"; "a"; "b"] b
                             <= group_size string_dec ["a"; "a"; "b"] a)
                 (keys (cluster_to_tokens string_dec ["a"; "a"; "b"]))).
  { repeat constructor. }
  split; [exact Hs|].
  exact (ranks_follow_first_seen_order string string_dec ["a"; "a"; "b"] Hs).
Defined.

Lemma initial_index_in_range_witness :
  (1 <= 400)%Z /\ (0 <= initial_index 400 < 400)%Z.
Proof.
  split; [lia|]. exact (initial_index_in_range 400 ltac:(lia)).
Defined.

Lemma presses_stay_in_range_witness :
  (0 <= 3 < 4)%Z
  /\ (0 <= presses 4 3 [ArrowRight; ArrowRight; ArrowLeft] < 4)%Z.
Proof.
  split; [lia|].
  exact (presses_stay_in_range 4 3 [ArrowRight; ArrowRight; ArrowLeft]
           ltac:(lia)).
Defined.

Lemma prev_next_round_trip_witness :
  (0 <= 2 < 5)%Z /\ prev_cluster (next_cluster 5 2) = 2%Z.
Proof.
  split; [lia|].
  exact (proj1 (prev_next_round_trip 5 2 ltac:(lia)) ltac:(lia)).
Defined.

Lemma repeated_presses_witness :
  (0 <= 1 < 5)%Z
  /\ presses 5 1 (repeat ArrowRight 7) = Z.min (1 + 7) (5 - 1).
Proof.
  split; [lia|]. exact (proj1 (repeated_presses 5 1 7 ltac:(lia))).
Defined.

Lemma every_cluster_reachable_witness :
  (0 <= 1 < 5)%Z /\ (0 <= 4 < 5)%Z
  /\ exists keys, presses 5 1 keys = 4%Z.
Proof.
  split; [lia|]. split; [lia|].
  exact (every_cluster_reachable 5 1 4 ltac:(lia) ltac:(lia)).
Defined.

Lemma default_selection_is_offered_witness :
  ["100"; "400"; "50"] <> []
  /\ default_index ["100"; "400"; "50"] = inr 1
  /\ exists default i,
       default_n_clusters ["100"; "400"; "50"] = inr default
       /\ default_index ["100"; "400"; "50"] = inr i
       /\ nth_error ["100"; "400"; "50"] i = Some default.
Proof.
  split; [discriminate|]. split; [reflexivity|].
  destruct (default_selection_is_offered ["100"; "400"; "50"]
              ltac:(discriminate)) as (d & i & H1 & H2 & H3 & _).
  exists d, i. split; [exact H1|]. split; [exact H2 | exact H3].
Defined.

Lemma samples_three_keys : NoDup (idx_to_token_idx samples_three).
Proof.
  repeat constructor; simpl; intros H;
    repeat (destruct H as [H|H]; [discriminate|]); exact H.
Defined.

Lemma samples_two_keys : NoDup (idx_to_token_idx samples_two).
Proof.
  repeat constructor; simpl; intros H;
    repeat (destruct H as [H|H]; [discriminate|]); exact H.
Defined.

(** The cluster of rank 0 of [assignment_aba] has the samples 0 and 2. *)
Lemma display_shows_every_sample_witness :
  NoDup (idx_to_token_idx samples_three)
  /\ List.length assignment_aba <= List.length samples_three
  /\ lookup_int (new_index_old_index string_dec assignment_aba) 0 = Some "a"
  /\ display string_dec assignment_aba samples_three 0
     = ([Write "## Cluster 0";
         Write separator;
         WriteHtml (bordered_cell plain "the" ++ bordered_cell highlight "cat");
         Write separator;
         WriteHtml (bordered_cell plain "a" ++ bordered_cell plain "b"
                    ++ bordered_cell highlight "c")],
        None).
Proof.
  split; [exact samples_three_keys|].
  split; [simpl; lia|]. split; [reflexivity|].
  exact (proj1 (display_shows_every_sample string string_dec
                  assignment_aba samples_three 0 "a"
                  samples_three_keys ltac:(simpl; lia) eq_refl)).
Defined.

Lemma no_exception_after_any_presses_witness :
  (1 <= 2)%Z
  /\ Z.of_nat (List.length (nodup string_dec assignment_aba)) = 2%Z
  /\ List.length assignment_aba <= List.length samples_three
  /\ snd (display string_dec assignment_aba samples_three
                  (presses 2 (initial_index 2)
                           [ArrowRight; ArrowRight; ArrowLeft]))
     = None.
Proof.
  split; [lia|]. split; [reflexivity|]. split; [simpl; lia|].
  exact (no_exception_after_any_presses string string_dec
           assignment_aba samples_three 2
           [ArrowRight; ArrowRight; ArrowLeft]
           ltac:(lia) eq_refl ltac:(simpl; lia)).
Defined.

(** With two samples only, sample 2 of the cluster of rank 0 is missing. *)
Lemma display_index_error_witness :
  NoDup (idx_to_token_idx samples_two)
  /\ lookup_int (new_index_old_index string_dec assignment_aba) 0 = Some "a"
  /\ getitem string_dec (cluster_to_tokens string_dec assignment_aba) "a"
     = [0; 2]
  /\ List.length samples_two <= 2
  /\ display string_dec assignment_aba samples_two 0
     = ([Write "## Cluster 0";
         Write separator;
         WriteHtml (bordered_cell plain "the" ++ bordered_cell highlight "cat")],
        Some IndexError).
Proof.
  split; [exact samples_two_keys|].
  do 2 (split; [reflexivity|]). split; [simpl; lia|].
  exact (display_index_error string string_dec
           assignment_aba samples_two 0 "a" [0] 2 []
           samples_two_keys eq_refl eq_refl
           ltac:(repeat constructor) ltac:(simpl; lia)).
Defined.
